(** * StudyPlanner: the time-allocation and recurrence engine

    A shallow embedding of [scheduling_algorithms.py], of the queries of
    [database_manager.py] it runs on, and of the request handlers of
    [app.py] that expand recurrences and complete tasks.

    Conventions of the embedding.
    - A naive [datetime] is the integer count of microseconds since the
      start of ordinal day 0; a [date] is its proleptic ordinal, so that
      [date.weekday()] is [(ordinal + 6) mod 7] as in CPython.
    - Quantities the source holds as float hours ([required_time], a slot's
      ['duration']) are exact here and counted in microseconds: 0.25 hours
      is [QUARTER_HOUR].  The rounding of [timedelta(hours=...)] to whole
      microseconds and the rounding of float subtraction are outside the
      model.
    - The TEXT columns [start_time], [end_time], [due_date] and
      [completion_date] are only ever written through [isoformat()] or
      [strftime('%Y-%m-%d')]; a row carries the instant or day that the text
      spells, and [fromisoformat] / [strptime] succeed on it.  The handlers'
      [except] branches for text that does not parse are therefore not
      reachable from stored rows and do not appear.
    - The INTEGER 0/1 flags [is_fixed] and [is_recurring] are booleans.
    - The database is passed explicitly: every function that runs SQL takes
      the [database] and, when it writes, returns the new one. *)

From Stdlib Require Import ZArith List Bool Lia String Ascii.
From Stdlib Require Import Permutation Sorting.Sorted.
Import ListNotations.
Open Scope Z_scope.

(** ** Dates and times *)

Definition datetime := Z.
Definition date := Z.

Definition MICROS_PER_HOUR : Z := 3600000000.
Definition MICROS_PER_DAY : Z := 24 * MICROS_PER_HOUR.
Definition QUARTER_HOUR : Z := 900000000.

(** [dt.date()] and [dt.time()] *)
Definition date_of (t : datetime) : date := t / MICROS_PER_DAY.
Definition time_of (t : datetime) : Z := t mod MICROS_PER_DAY.

(** [datetime.combine(d, t)] *)
Definition datetime_combine (d : date) (t : Z) : datetime :=
  d * MICROS_PER_DAY + t.

(** [timedelta(days=n)] *)
Definition timedelta_days (n : Z) : Z := n * MICROS_PER_DAY.

(** [dt.replace(hour=h, minute=0, second=0, microsecond=0)] *)
Definition replace_hour (t : datetime) (h : Z) : datetime :=
  datetime_combine (date_of t) (h * MICROS_PER_HOUR).

(** [d.weekday()], 0 = Monday .. 6 = Sunday *)
Definition weekday (d : date) : Z := (d + 6) mod 7.

(** ** The tables of [database_manager.py] *)

Record task : Type := mk_task {
  task_id : Z;
  task_user_id : Z;
  subject_id : option Z;
  task_name : string;
  due_date : date;                 (* TEXT, 'YYYY-MM-DD' *)
  required_time : Z;               (* REAL hours *)
  priority_weight : Z;
  status : string;
  task_is_recurring : bool;
  completion_date : option date    (* TEXT DEFAULT NULL *)
}.

Record schedule_block : Type := mk_block {
  block_id : Z;
  block_user_id : Z;
  block_task_id : option Z;
  activity_name : string;
  start_time : datetime;           (* TEXT, isoformat *)
  end_time : datetime;             (* TEXT, isoformat *)
  is_fixed : bool;
  is_recurring : bool;
  recurrence_pattern : string;
  notes : string
}.

(** [next_block_id] is the AUTOINCREMENT sequence of [schedule_blocks]. *)
Record database : Type := mk_db {
  tasks : list task;
  schedule_blocks : list schedule_block;
  next_block_id : Z
}.

(** [ORDER BY key ASC]: a stable insertion sort on an integer key. *)
Section OrderBy.
Context {A : Type} (key : A -> Z).

Fixpoint insert_by (x : A) (l : list A) : list A :=
  match l with
  | [] => [x]
  | y :: l' => if key x <? key y then x :: y :: l' else y :: insert_by x l'
  end.

Fixpoint order_by (l : list A) : list A :=
  match l with
  | [] => []
  | x :: l' => insert_by x (order_by l')
  end.

End OrderBy.

Definition set_task_status (new_status : string) (t : task) : task :=
  mk_task (task_id t) (task_user_id t) (subject_id t) (task_name t)
          (due_date t) (required_time t) (priority_weight t)
          new_status (task_is_recurring t) (completion_date t).

(** [UPDATE tasks SET status = ? WHERE id = ?] *)
Definition update_status (id : Z) (new_status : string) (db : database)
  : database :=
  mk_db (map (fun t => if task_id t =? id
                       then set_task_status new_status t else t) (tasks db))
        (schedule_blocks db) (next_block_id db).

(** [SELECT * FROM tasks WHERE user_id = ? AND status = ? ORDER BY due_date ASC] *)
Definition fetch_tasks (user_id : Z) (st : string) (db : database)
  : list task :=
  order_by due_date
    (filter (fun t => (task_user_id t =? user_id) && String.eqb (status t) st)
            (tasks db)).

(** [SELECT * FROM tasks WHERE id = ?], [fetchone] *)
Definition get_task_by_id (id : Z) (db : database) : option task :=
  find (fun t => task_id t =? id) (tasks db).

(** [SELECT * FROM tasks WHERE user_id = ? ORDER BY id DESC LIMIT ?] *)
Definition fetch_recent_tasks (user_id : Z) (limit : nat) (db : database)
  : list task :=
  firstn limit
    (order_by (fun t => - task_id t)
       (filter (fun t => task_user_id t =? user_id) (tasks db))).

Definition insert_schedule_block (user_id : Z) (tid : option Z)
    (name : string) (s e : datetime) (fixed recurring : bool)
    (pattern note : string) (db : database) : database :=
  mk_db (tasks db)
        (schedule_blocks db ++
           [mk_block (next_block_id db) user_id tid name s e
                     fixed recurring pattern note])
        (next_block_id db + 1).

(** [SELECT * FROM schedule_blocks WHERE user_id = ? ORDER BY start_time ASC] *)
Definition fetch_all_schedule_blocks (user_id : Z) (db : database)
  : list schedule_block :=
  order_by start_time
    (filter (fun b => block_user_id b =? user_id) (schedule_blocks db)).

(** [... WHERE user_id = ? AND is_fixed = 1 ORDER BY start_time] *)
Definition get_fixed_activities (user_id : Z) (db : database)
  : list schedule_block :=
  order_by start_time
    (filter (fun b => (block_user_id b =? user_id) && is_fixed b)
            (schedule_blocks db)).

(** [DELETE FROM schedule_blocks WHERE user_id = ? AND is_fixed = 0] *)
Definition delete_flexible_schedule_blocks (user_id : Z) (db : database)
  : database :=
  mk_db (tasks db)
        (filter (fun b => negb ((block_user_id b =? user_id)
                                && negb (is_fixed b)))
                (schedule_blocks db))
        (next_block_id db).

(** ** [scheduling_algorithms.py] *)

(** What a task dict holds under ['due_date']: rows read from the [tasks]
    table give a [str]; [get_days_until_due] asks for a [datetime]. *)
Inductive due_value : Type :=
| DueStr (d : date)
| DueDatetime (t : datetime).

(** [today] is the reading of [datetime.today()] *)
Definition get_days_until_due (today : datetime) (due : due_value) : Z :=
  let delta :=
    match due with
    | DueDatetime t => date_of t - date_of today
    | DueStr _ => 0
    end in
  Z.max 0 delta.

Record scored_task : Type := mk_scored {
  TASK_DETAIL : task;
  SCORE : Z
}.

Definition score_at (task_list : list scored_task) (j : nat) : Z :=
  match nth_error task_list j with
  | Some e => SCORE e
  | None => 0
  end.

Fixpoint set_nth {A : Type} (l : list A) (i : nat) (x : A) : list A :=
  match l, i with
  | [], _ => []
  | _ :: l', O => x :: l'
  | y :: l', S i' => y :: set_nth l' i' x
  end.

(** [l[i], l[j] = l[j], l[i]] *)
Definition swap {A : Type} (l : list A) (i j : nat) : list A :=
  match nth_error l i, nth_error l j with
  | Some a, Some b => set_nth (set_nth l i b) j a
  | _, _ => l
  end.

(** The inner loop [for j in range(i + 1, N)]; [n] iterations remain. *)
Fixpoint find_max_index (task_list : list scored_task)
    (max_index j : nat) (n : nat) : nat :=
  match n with
  | O => max_index
  | S n' =>
      find_max_index task_list
        (if score_at task_list j >? score_at task_list max_index
         then j else max_index)
        (S j) n'
  end.

(** The outer loop [for i in range(N - 1)]; [n] iterations remain. *)
Fixpoint selection_loop (task_list : list scored_task) (i : nat) (n : nat)
  : list scored_task :=
  match n with
  | O => task_list
  | S n' =>
      let N := List.length task_list in
      let max_index := find_max_index task_list i (S i) (N - S i) in
      selection_loop
        (if Nat.eqb max_index i then task_list else swap task_list i max_index)
        (S i) n'
  end.

Definition selection_sort_tasks (task_list : list scored_task)
  : list scored_task :=
  selection_loop task_list 0 (List.length task_list - 1).

Definition MAX_URGENCY_DAYS : Z := 90.
Definition PRIORITY_FACTOR : Z := 10.

Definition score_task (today : datetime) (t : task) : scored_task :=
  let days_remaining := get_days_until_due today (DueStr (due_date t)) in
  let urgency_score := MAX_URGENCY_DAYS - days_remaining in
  let total_priority_score :=
    urgency_score * PRIORITY_FACTOR + priority_weight t in
  mk_scored t total_priority_score.

Definition task_prioritization (today : datetime) (task_records : list task)
  : list scored_task :=
  selection_sort_tasks (map (score_task today) task_records).

(** [check_for_conflict]: [true] when the range is free. *)
Fixpoint no_block_overlaps (blocks : list schedule_block)
    (new_start new_end : datetime) : bool :=
  match blocks with
  | [] => true
  | b :: rest =>
      if (new_start <? end_time b) && (new_end >? start_time b)
      then false
      else no_block_overlaps rest new_start new_end
  end.

Definition check_for_conflict (db : database) (user_id : Z)
    (new_start new_end : datetime) : bool :=
  no_block_overlaps (fetch_all_schedule_blocks user_id db) new_start new_end.

Record slot : Type := mk_slot {
  slot_start : datetime;     (* 'start_time' *)
  duration : Z               (* 'duration' *)
}.

(** The body of [for a in available] for a fixed activity
    [fa_start .. fa_end]: what is appended to [new_available] for the piece
    [a]; pieces are (start, end) pairs. *)
Definition cut_piece (fa_start fa_end : datetime)
    (a : datetime * datetime) : list (datetime * datetime) :=
  let '(a_start, a_end) := a in
  if (fa_end <=? a_start) || (fa_start >=? a_end)
  then [(a_start, a_end)]
  else (if fa_start >? a_start then [(a_start, fa_start)] else [])
       ++ (if fa_end <? a_end then [(fa_end, a_end)] else []).

Definition subtract_fixed (fa_start fa_end : datetime)
    (available : list (datetime * datetime)) : list (datetime * datetime) :=
  flat_map (cut_piece fa_start fa_end) available.

(** The body of the closing [for a in available]: a piece of a quarter of
    an hour or more becomes a slot. *)
Definition keep_slot (a : datetime * datetime) : list slot :=
  let '(a_start, a_end) := a in
  let duration_hours := a_end - a_start in
  if duration_hours >=? QUARTER_HOUR
  then [mk_slot a_start duration_hours]
  else [].

Definition keep_slots (available : list (datetime * datetime)) : list slot :=
  flat_map keep_slot available.

(** The body of [for d in range(1, days_window + 1)]. *)
Definition day_free_slots (now : datetime)
    (fixed_activities : list schedule_block) (d : Z) : list slot :=
  let day := replace_hour (now + timedelta_days d) 8 in
  let window_start := day in
  let window_end := replace_hour day 22 in
  let available :=
    fold_left (fun available fa =>
                 subtract_fixed (start_time fa) (end_time fa) available)
              fixed_activities [(window_start, window_end)] in
  keep_slots available.

Definition calculate_free_time (now : datetime) (user_id : Z)
    (fixed_activities : list schedule_block) (days_window : nat)
  : list slot :=
  flat_map (day_free_slots now fixed_activities)
           (map Z.of_nat (seq 1 days_window)).

(** [for slot in available_slots] for one task: the slot pool is updated in
    place and every allocation inserts a flexible block. *)
Fixpoint scan_slots (user_id : Z) (tid : Z) (name : string)
    (remaining : Z) (available_slots : list slot) (db : database)
  : list slot * Z * database :=
  match available_slots with
  | [] => ([], remaining, db)
  | s :: rest =>
      if remaining <=? 0 then (available_slots, remaining, db)
      else
        let allocation := Z.min remaining (duration s) in
        if allocation <=? 0 then
          let '(rest', r, db') :=
            scan_slots user_id tid name remaining rest db in
          (s :: rest', r, db')
        else
          let start := slot_start s in
          let finish := start + allocation in
          let db1 := insert_schedule_block user_id (Some tid) name
                       start finish false false "once" "" db in
          let '(rest', r, db') :=
            scan_slots user_id tid name (remaining - allocation) rest db1 in
          (mk_slot finish (duration s - allocation) :: rest', r, db')
  end.

Definition allocate_task (user_id : Z) (st : list slot * database)
    (entry : scored_task) : list slot * database :=
  let t := TASK_DETAIL entry in
  let required := required_time t in
  let '(slots', remaining, db') :=
    scan_slots user_id (task_id t) (task_name t) required (fst st) (snd st) in
  if remaining >? 0
  then (slots', update_status (task_id t) "INSUFFICIENT_TIME_WARNING" db')
  else (slots', db').

Definition allocate_time_slots (now : datetime) (user_id : Z)
    (prioritized_task_list : list scored_task) (db : database) : database :=
  let fixed_activities := get_fixed_activities user_id db in
  let available_slots :=
    calculate_free_time now user_id fixed_activities 7 in
  match available_slots with
  | [] => db
  | _ :: _ =>
      snd (fold_left (allocate_task user_id) prioritized_task_list
                     (available_slots, db))
  end.

(** [dynamic_rescheduling]; [update_progress] is a placeholder that returns. *)
Definition dynamic_rescheduling (completed_task_id : Z) (db : database)
  : database :=
  match get_task_by_id completed_task_id db with
  | None => db
  | Some t =>
      if String.eqb (status t) "COMPLETED" then db
      else update_status completed_task_id "COMPLETED" db
  end.

Record metrics : Type := mk_metrics {
  M_COMPLETED : nat;
  M_PENDING : nat;
  M_MISSED : nat
}.

(** One iteration of [for t in tasks] of [calculate_weekly_status]: the
    ['due_date'] of a row is a [str] and is read with [strptime]. *)
Definition count_task (current_date : datetime) (m : metrics) (t : task)
  : metrics :=
  let start_date := current_date - timedelta_days 7 in
  let due := due_date t in
  if due <? date_of start_date then m
  else if String.eqb (status t) "COMPLETED"
  then mk_metrics (S (M_COMPLETED m)) (M_PENDING m) (M_MISSED m)
  else if due <? date_of current_date
  then mk_metrics (M_COMPLETED m) (M_PENDING m) (S (M_MISSED m))
  else mk_metrics (M_COMPLETED m) (S (M_PENDING m)) (M_MISSED m).

Definition calculate_weekly_status (current_date : datetime) (user_id : Z)
    (db : database) : metrics :=
  fold_left (count_task current_date)
            (fetch_recent_tasks user_id 5 db)
            (mk_metrics 0 0 0).

(** ** More queries of [database_manager.py], used by the handlers *)

(** [SELECT * FROM schedule_blocks WHERE id = ? AND user_id = ?], [fetchone] *)
Definition get_schedule_block_by_id (id user_id : Z) (db : database)
  : option schedule_block :=
  find (fun b => (block_id b =? id) && (block_user_id b =? user_id))
       (schedule_blocks db).

(** [DELETE FROM schedule_blocks WHERE id = ? AND user_id = ?] *)
Definition delete_schedule_block (id user_id : Z) (db : database)
  : database :=
  mk_db (tasks db)
        (filter (fun b => negb ((block_id b =? id)
                                && (block_user_id b =? user_id)))
                (schedule_blocks db))
        (next_block_id db).

(** [... WHERE user_id = ? AND activity_name = ? AND recurrence_pattern = ?
    ORDER BY start_time] *)
Definition get_schedule_blocks_by_activity (user_id : Z)
    (name pattern : string) (db : database) : list schedule_block :=
  order_by start_time
    (filter (fun b => (block_user_id b =? user_id)
                      && String.eqb (activity_name b) name
                      && String.eqb (recurrence_pattern b) pattern)
            (schedule_blocks db)).

(** [update_schedule_block(block_id, user_id, activity_name=, start_time=,
    end_time=, notes=)] as the handlers call it: the first three are always
    given, [notes] may be [None] and is then left alone. *)
Definition update_schedule_block (id user_id : Z) (name : string)
    (s e : datetime) (note : option string) (db : database) : database :=
  mk_db (tasks db)
        (map (fun b =>
                if (block_id b =? id) && (block_user_id b =? user_id)
                then mk_block (block_id b) (block_user_id b)
                       (block_task_id b) name s e (is_fixed b)
                       (is_recurring b) (recurrence_pattern b)
                       (match note with Some n => n | None => notes b end)
                else b)
             (schedule_blocks db))
        (next_block_id db).

(** [handle_task_completion], on the migrated schema (the one with a
    [completion_date] column); [today] is [date.today()]. *)
Definition handle_task_completion (today : date) (id : Z) (db : database)
  : option task * database :=
  match find (fun t => task_id t =? id) (tasks db) with
  | None => (None, db)
  | Some t =>
      if task_is_recurring t then
        let new_due := due_date t + 7 in
        let upd (r : task) :=
          mk_task (task_id r) (task_user_id r) (subject_id r) (task_name r)
                  new_due (required_time r) (priority_weight r)
                  "PENDING" (task_is_recurring r) (completion_date r) in
        (Some (upd t),
         mk_db (map (fun r => if task_id r =? id then upd r else r) (tasks db))
               (schedule_blocks db) (next_block_id db))
      else
        let upd (r : task) :=
          mk_task (task_id r) (task_user_id r) (subject_id r) (task_name r)
                  (due_date r) (required_time r) (priority_weight r)
                  "COMPLETED" (task_is_recurring r) (Some today) in
        (Some (upd t),
         mk_db (map (fun r => if task_id r =? id then upd r else r) (tasks db))
               (schedule_blocks db) (next_block_id db))
  end.

(** ** The request handlers of [app.py]

    A handler takes the logged-in user, the posted form and the database,
    and returns what it flashes together with the new database.  [now] is
    the clock reading of the request. *)

(** A form field holding text to be parsed: absent or empty, text that the
    parser rejects, or text that parses. *)
Inductive field (A : Type) : Type :=
| Missing
| Malformed
| Parsed (a : A).
Arguments Missing {A}.
Arguments Malformed {A}.
Arguments Parsed {A} a.

Inductive flash : Type :=
| flash_error (message : string)
| flash_success (message : string)
| flash_occurrences (count : Z).     (* success, with "{count} occurrences" *)

(** [str(current_date.weekday())] *)
Definition str_weekday (d : date) : string :=
  String (ascii_of_nat (48 + Z.to_nat (weekday d))) EmptyString.

Definition is_series_pattern (pattern : string) : bool :=
  String.eqb pattern "weekly" || String.eqb pattern "biweekly".

(** The day test of the expansion loop: [str(weekday) in selected_days],
    preceded in [add_activity] by [(not selected_days) or]. *)
Definition day_selected (empty_selects_all : bool)
    (selected_days : list string) (current_date : date) : bool :=
  (empty_selects_all
   && match selected_days with [] => true | _ :: _ => false end)
  || existsb (String.eqb (str_weekday current_date)) selected_days.

(** The loop [while current_date <= recurrence_end], which [app.py] has three
    times: in [add_activity], where the day test is
    [(not selected_days) or (str(weekday) in selected_days)], and twice in
    [edit_schedule_block], where it is [str(weekday) in selected_days] alone;
    [empty_selects_all] tells them apart.  The date advances by one day in
    every iteration, so the loop runs once for each of the [n] days left in
    the range. *)
Fixpoint expand_recurrence (empty_selects_all : bool) (user_id : Z)
    (name pattern note : string) (selected_days : list string)
    (recurrence_start : date) (t_start t_end : Z)
    (n : nat) (current_date : date) (count : Z) (db : database)
  : Z * database :=
  match n with
  | O => (count, db)
  | S n' =>
      let continue := expand_recurrence empty_selects_all user_id name pattern
                        note selected_days recurrence_start t_start t_end
                        n' (current_date + 1) in
      if day_selected empty_selects_all selected_days current_date
      then
        let block_start := datetime_combine current_date t_start in
        let block_end := datetime_combine current_date t_end in
        if block_end <=? block_start then continue count db
        else if String.eqb pattern "biweekly"
                && negb (((current_date - recurrence_start) / 7) mod 2 =? 0)
        then continue count db
        else if check_for_conflict db user_id block_start block_end
        then continue (count + 1)
               (insert_schedule_block user_id None name block_start block_end
                  true true pattern note db)
        else continue count db
      else continue count db
  end.

Definition days_in_range (range_start range_end : date) : nat :=
  Z.to_nat (range_end - range_start + 1).

Record activity_form : Type := mk_activity_form {
  f_activity_name : string;
  f_notes : string;
  f_recurrence_pattern : string;
  f_one_time_date : field date;
  f_start_time_only : field Z;
  f_end_time_only : field Z;
  f_recurrence_start_date : field date;
  f_recurrence_end_date : field date;
  f_days : list string
}.

Definition is_missing {A : Type} (f : field A) : bool :=
  match f with Missing => true | _ => false end.

(** [add_activity], POST *)
Definition add_activity (user_id : Z) (form : activity_form) (db : database)
  : flash * database :=
  let name := f_activity_name form in
  let note := f_notes form in
  let pattern := f_recurrence_pattern form in
  if String.eqb pattern "once" then
    if is_missing (f_one_time_date form) || is_missing (f_start_time_only form)
       || is_missing (f_end_time_only form)
    then (flash_error "Please provide date and start/end times for the activity", db)
    else
      match f_one_time_date form, f_start_time_only form,
            f_end_time_only form with
      | Parsed one_date, Parsed ts, Parsed te =>
          let new_start := datetime_combine one_date ts in
          let new_end := datetime_combine one_date te in
          if new_end <=? new_start
          then (flash_error "End must be after start", db)
          else if negb (check_for_conflict db user_id new_start new_end)
          then (flash_error "Conflict with existing schedule", db)
          else (flash_success "Fixed activity added",
                insert_schedule_block user_id None name new_start new_end
                  true false "once" note db)
      | _, _, _ => (flash_error "Invalid date/time format", db)
      end
  else
    if is_missing (f_recurrence_start_date form)
       || is_missing (f_recurrence_end_date form)
       || is_missing (f_start_time_only form)
       || is_missing (f_end_time_only form)
    then (flash_error "Please provide recurrence period and start/end times", db)
    else
      match f_recurrence_start_date form, f_recurrence_end_date form with
      | Parsed recurrence_start, Parsed recurrence_end =>
          if recurrence_end <? recurrence_start
          then (flash_error "End date must be after start date", db)
          else
            match f_start_time_only form, f_end_time_only form with
            | Parsed t_start, Parsed t_end =>
                let '(count, db') :=
                  expand_recurrence true user_id name pattern note
                    (f_days form) recurrence_start t_start t_end
                    (days_in_range recurrence_start recurrence_end)
                    recurrence_start 0 db in
                (flash_occurrences count, db')
            | _, _ => (flash_error "Invalid start/end time format", db)
            end
      | _, _ => (flash_error "Invalid recurrence dates", db)
      end.

Record edit_form : Type := mk_edit_form {
  e_activity_name : string;
  e_start_time : field datetime;
  e_end_time : field datetime;
  e_notes : option string;
  e_recurrence_pattern : string;
  e_days : list string;
  e_recurrence_start_date : field date;
  e_recurrence_end_date : field date;
  e_occurrence_id : field Z
}.

(** [notes or ''] *)
Definition notes_or_empty (note : option string) : string :=
  match note with Some n => n | None => "" end.

(** [for ob in old_blocks: db.delete_schedule_block(ob['id'], user_id)] *)
Definition delete_series (user_id : Z) (old_name old_pattern : string)
    (db : database) : database :=
  fold_left (fun d ob => delete_schedule_block (block_id ob) user_id d)
            (get_schedule_blocks_by_activity user_id old_name old_pattern db)
            db.

(** The weekly/biweekly branch of [edit_schedule_block], which the source
    writes out once for a block of a series and once for a one-time block;
    [delete_old] is what each of them deletes before expanding. *)
Definition regenerate_series (user_id : Z) (form : edit_form)
    (new_start new_end : datetime) (delete_old : database -> database)
    (db : database) : flash * database :=
  match e_days form with
  | [] => (flash_error "Please select at least one day", db)
  | _ :: _ =>
      match e_recurrence_start_date form, e_recurrence_end_date form with
      | Malformed, _ | _, Malformed =>
          (flash_error "Invalid recurrence dates", db)
      | Parsed r_start, Parsed r_end =>
          if r_end <? r_start
          then (flash_error "End date must be after start date", db)
          else
            let db1 := delete_old db in
            let t_start := time_of new_start in
            let t_end := time_of new_end in
            let '(count, db2) :=
              expand_recurrence false user_id (e_activity_name form)
                (e_recurrence_pattern form) (notes_or_empty (e_notes form))
                (e_days form) r_start t_start t_end
                (days_in_range r_start r_end) r_start 0 db1 in
            (flash_occurrences count, db2)
      | _, _ => (flash_error "End date must be after start date", db)
      end
  end.

(** The last branch for a series: every occurrence is shifted by the move of
    the anchor occurrence and given the new length. *)
Definition shift_series (user_id id : Z) (block : schedule_block)
    (form : edit_form) (new_start new_end : datetime) (db : database)
  : database :=
  let all_blocks :=
    get_schedule_blocks_by_activity user_id (activity_name block)
      (recurrence_pattern block) db in
  let length := new_end - new_start in
  let anchor_id :=
    match e_occurrence_id form with Parsed o => o | _ => id end in
  let anchor_old_start :=
    match get_schedule_block_by_id anchor_id user_id db with
    | Some anchor_block => start_time anchor_block
    | None => start_time block
    end in
  fold_left
    (fun d b =>
       match get_schedule_block_by_id (block_id b) user_id d with
       | Some old_block =>
           let time_diff := new_start - anchor_old_start in
           let new_block_start := start_time old_block + time_diff in
           let new_block_end := new_block_start + length in
           update_schedule_block (block_id b) user_id (e_activity_name form)
             new_block_start new_block_end (e_notes form) d
       | None => d
       end)
    all_blocks db.

(** [edit_schedule_block], POST *)
Definition edit_schedule_block (user_id id : Z) (form : edit_form)
    (db : database) : flash * database :=
  match get_schedule_block_by_id id user_id db with
  | None => (flash_error "Activity not found.", db)
  | Some block =>
      match e_start_time form, e_end_time form with
      | Parsed new_start, Parsed new_end =>
          if new_start >=? new_end
          then (flash_error "Start time must be before end time", db)
          else
            let name := e_activity_name form in
            let pattern := e_recurrence_pattern form in
            if is_recurring block then
              if is_series_pattern pattern then
                regenerate_series user_id form new_start new_end
                  (delete_series user_id (activity_name block)
                     (recurrence_pattern block)) db
              else if String.eqb pattern "once" then
                let db1 := delete_series user_id (activity_name block)
                             (recurrence_pattern block) db in
                (flash_success "Updated activity",
                 insert_schedule_block user_id None name new_start new_end
                   true false "once" (notes_or_empty (e_notes form)) db1)
              else
                (flash_success "Updated all occurrences",
                 shift_series user_id id block form new_start new_end db)
            else
              if is_series_pattern pattern then
                regenerate_series user_id form new_start new_end
                  (delete_schedule_block id user_id) db
              else
                (flash_success "Updated activity",
                 update_schedule_block id user_id name new_start new_end
                   (e_notes form) db)
      | _, _ => (flash_error "Invalid date/time format", db)
      end
  end.

(** [generate_schedule]: the query that follows the allocation only picks
    the message to flash, so the handler is given by the database it leaves. *)
Definition generate_schedule (now : datetime) (user_id : Z) (db : database)
  : database :=
  let db1 := delete_flexible_schedule_blocks user_id db in
  let pending := fetch_tasks user_id "PENDING" db1 in
  let prioritized := task_prioritization now pending in
  allocate_time_slots now user_id prioritized db1.

(** [complete_task], POST.  For a recurring task the handler repeats the
    statements of [generate_schedule] (delete the flexible blocks, fetch the
    PENDING tasks, prioritize, allocate). *)
Definition complete_task (now : datetime) (user_id id : Z) (db : database)
  : flash * database :=
  match handle_task_completion (date_of now) id db with
  | (None, db1) => (flash_error "Task not found.", db1)
  | (Some completed_task, db1) =>
      if task_is_recurring completed_task then
        (flash_success "Task reset for next week. Schedule will be regenerated.",
         generate_schedule now user_id db1)
      else
        (flash_success "Task marked completed. Schedule adjusted.",
         dynamic_rescheduling id db1)
  end.

(** ** Deleting and editing *)

(** [delete_task]: the blocks linked to the task, then the task. *)
Definition delete_task (id user_id : Z) (db : database) : database :=
  mk_db (filter (fun t => negb ((task_id t =? id)
                                && (task_user_id t =? user_id)))
                (tasks db))
        (filter (fun b => negb (match block_task_id b with
                                | Some tid => tid =? id
                                | None => false
                                end
                                && (block_user_id b =? user_id)))
                (schedule_blocks db))
        (next_block_id db).

(** [delete_all_recurring_activities]: returns [cursor.rowcount]. *)
Definition delete_all_recurring_activities (user_id : Z)
    (name pattern : string) (db : database) : nat * database :=
  let in_series (b : schedule_block) :=
    (block_user_id b =? user_id)
    && String.eqb (activity_name b) name
    && String.eqb (recurrence_pattern b) pattern in
  (List.length (filter in_series (schedule_blocks db)),
   mk_db (tasks db)
         (filter (fun b => negb (in_series b)) (schedule_blocks db))
         (next_block_id db)).

(** [delete_all_recurring_blocks_view], POST; the count is what the
    handler puts in its message. *)
Definition delete_all_recurring_blocks_view (user_id id : Z) (db : database)
  : flash * database :=
  match get_schedule_block_by_id id user_id db with
  | None => (flash_error "Block not found", db)
  | Some block =>
      if is_series_pattern (recurrence_pattern block) then
        let '(deleted_count, db') :=
          delete_all_recurring_activities user_id (activity_name block)
            (recurrence_pattern block) db in
        (flash_occurrences (Z.of_nat deleted_count), db')
      else
        (flash_success "Schedule block deleted",
         delete_schedule_block id user_id db)
  end.

(** [update_task] as [edit_task] calls it: [due_date], [required_time] and
    [priority_weight] are always given, [name] is the form value and may be
    [None], and [subject_id] is written in every case. *)
Definition update_task (id user_id : Z) (name : option string)
    (due : date) (req pri : Z) (subject : option Z) (db : database)
  : database :=
  mk_db (map (fun t =>
                if (task_id t =? id) && (task_user_id t =? user_id)
                then mk_task (task_id t) (task_user_id t) subject
                       (match name with Some n => n | None => task_name t end)
                       due req pri (status t) (task_is_recurring t)
                       (completion_date t)
                else t)
             (tasks db))
        (schedule_blocks db) (next_block_id db).

(** The form of [edit_task].  [tf_priority_weight] is [Missing] when the
    form has no such key, and the handler then takes the stored weight. *)
Record task_form : Type := mk_task_form {
  tf_task_name : option string;
  tf_due_date : field date;
  tf_required_time : field Z;
  tf_priority_weight : field Z;
  tf_subject_id : option Z        (* after the normalisation to int or None *)
}.

(** [edit_task], POST, up to the redirect to [generate_schedule]. *)
Definition edit_task (user_id id : Z) (form : task_form) (db : database)
  : flash * database :=
  match get_task_by_id id db with
  | None => (flash_error "Task not found.", db)
  | Some t =>
      if negb (task_user_id t =? user_id)
      then (flash_error "Task not found.", db)
      else
        match tf_due_date form, tf_required_time form,
              (match tf_priority_weight form with
               | Missing => Parsed (priority_weight t)
               | other => other
               end) with
        | Parsed due, Parsed req, Parsed pri =>
            if req <=? 0
            then (flash_error "Required time cannot be zero", db)
            else (flash_success "Task updated",
                  update_task id user_id (tf_task_name form) due req pri
                    (tf_subject_id form) db)
        | _, _, _ => (flash_error "Invalid input types", db)
        end
  end.

(** ** The properties in the words of the specification *)

(** Half-open overlap of [s1, e1) and [s2, e2), in the words of the
    specification. *)
Definition overlaps (s1 e1 s2 e2 : datetime) : Prop := s1 < e2 /\ s2 < e1.

(** The score in the words of the specification: urgency is 90 minus the
    clamped number of days from today to the due date. *)
Definition specified_score (today : datetime) (t : task) : Z :=
  (90 - Z.max 0 (due_date t - date_of today)) * 10 + priority_weight t.

(** A stable descending sort by score, in the words of the specification:
    an entry is placed after the entries of greater score and before those
    of equal or smaller score that followed it in the input. *)
Fixpoint insert_desc (x : scored_task) (l : list scored_task)
  : list scored_task :=
  match l with
  | [] => [x]
  | y :: l' => if SCORE y >? SCORE x then y :: insert_desc x l'
               else x :: y :: l'
  end.

Fixpoint stable_sort_desc (l : list scored_task) : list scored_task :=
  match l with
  | [] => []
  | x :: l' => insert_desc x (stable_sort_desc l')
  end.

(** Descending by score. *)
Definition score_ge (a b : scored_task) : Prop := SCORE a >= SCORE b.

(** [UPDATE tasks SET ... WHERE id = ?] with an arbitrary change [g] of the
    row, used to say that a row has no influence on a result. *)
Definition rewrite_task (id : Z) (g : task -> task) (db : database)
  : database :=
  mk_db (map (fun t => if task_id t =? id then g t else t) (tasks db))
        (schedule_blocks db) (next_block_id db).

(** The user's tasks created after the task [id]: those of greater id. *)
Definition newer_tasks (user_id id : Z) (db : database) : list task :=
  filter (fun t => id <? task_id t)
         (filter (fun t => task_user_id t =? user_id) (tasks db)).

Definition total (m : metrics) : nat :=
  (M_COMPLETED m + M_PENDING m + M_MISSED m)%nat.

(** The biweekly condition in the words of the specification:
    [floor((d - rangeStart).days / 7) mod 2 == 0]. *)
Definition on_week (range_start d : date) : Prop :=
  ((d - range_start) / 7) mod 2 = 0.

(** The occurrence of a series on day [d]: its start and end. *)
Definition occurrence (t_start t_end : Z) (d : date) : datetime * datetime :=
  (datetime_combine d t_start, datetime_combine d t_end).

Definition block_interval (b : schedule_block) : datetime * datetime :=
  (start_time b, end_time b).

(** What the expansion decides for the day [d] against the blocks of [db]:
    the weekday is selected, the time of day is a proper interval, a
    biweekly series is on its week, and the occurrence is free. *)
Definition inserted_on (empty_selects_all : bool) (user_id : Z)
    (pattern : string) (selected_days : list string)
    (recurrence_start : date) (t_start t_end : Z)
    (db : database) (d : date) : Prop :=
  day_selected empty_selects_all selected_days d = true
  /\ t_start < t_end
  /\ (pattern = "biweekly"%string -> on_week recurrence_start d)
  /\ check_for_conflict db user_id (datetime_combine d t_start)
       (datetime_combine d t_end) = true.

(** All seven weekday boxes of the form ticked. *)
Definition all_weekdays : list string :=
  ["0"; "1"; "2"; "3"; "4"; "5"; "6"]%string.

Definition with_days (form : activity_form) (days : list string)
  : activity_form :=
  mk_activity_form (f_activity_name form) (f_notes form)
    (f_recurrence_pattern form) (f_one_time_date form)
    (f_start_time_only form) (f_end_time_only form)
    (f_recurrence_start_date form) (f_recurrence_end_date form) days.

(** Two intervals do not overlap under the half-open test: one starts at
    or after the end of the other. *)
Definition apart (a b : datetime * datetime) : Prop :=
  snd a <= fst b \/ snd b <= fst a.

(** [a] lies within [b]. *)
Definition inside (a b : datetime * datetime) : Prop :=
  fst b <= fst a /\ snd a <= snd b.

(** The time a free slot still covers. *)
Definition slot_interval (s : slot) : datetime * datetime :=
  (slot_start s, slot_start s + duration s).

(** 08:00 and 22:00 of the day [d] days after the day of [now]. *)
Definition window (now : datetime) (d : Z) : datetime * datetime :=
  (datetime_combine (date_of now + d) (8 * MICROS_PER_HOUR),
   datetime_combine (date_of now + d) (22 * MICROS_PER_HOUR)).

(** Every row of the task [id] carries the warning status. *)
Definition flagged (id : Z) (db : database) : Prop :=
  forall row, In row (tasks db) -> task_id row = id ->
              status row = "INSUFFICIENT_TIME_WARNING"%string.

(** A flexible block of [user_id] of positive length. *)
Definition flexible_block (user_id : Z) (b : schedule_block) : Prop :=
  block_user_id b = user_id /\ is_fixed b = false
  /\ start_time b < end_time b.

(** The hours of a list of blocks, and the hours left in a slot pool. *)
Definition total_length (blocks : list schedule_block) : Z :=
  fold_right (fun b acc => (end_time b - start_time b) + acc) 0 blocks.





(** The blocks of a series: same user, activity name and pattern. *)
Definition in_series (user_id : Z) (name pattern : string)
    (b : schedule_block) : bool :=
  (block_user_id b =? user_id)
  && String.eqb (activity_name b) name
  && String.eqb (recurrence_pattern b) pattern.

(** Every block linked to a task is linked to a stored task of its user. *)
Definition references_ok (db : database) : Prop :=
  forall b tid, In b (schedule_blocks db) -> block_task_id b = Some tid ->
    exists t, In t (tasks db) /\ task_id t = tid
              /\ task_user_id t = block_user_id b.

(** What the expansion writes into every block it inserts. *)
Definition occurrence_block (user_id : Z) (name pattern note : string)
    (b : schedule_block) : Prop :=
  block_user_id b = user_id /\ block_task_id b = None
  /\ activity_name b = name /\ is_fixed b = true /\ is_recurring b = true
  /\ recurrence_pattern b = pattern /\ notes b = note
  /\ start_time b < end_time b.

(** A task row after a pass: as it was, or with the warning status when
    its id is one of [ids]. *)
Definition flag_only (ids : list Z) (old new : task) : Prop :=
  new = old
  \/ (new = set_task_status "INSUFFICIENT_TIME_WARNING" old
      /\ In (task_id old) ids).

(** A task row after [edit_task] by [user_id] on the task [id]: as it was,
    or a row of that user and id whose status, recurring flag and
    completion date are as before and whose required time is positive. *)
Definition edited (user_id id : Z) (old new : task) : Prop :=
  new = old
  \/ (task_id old = id /\ task_user_id old = user_id
      /\ task_id new = id /\ task_user_id new = user_id
      /\ status new = status old
      /\ task_is_recurring new = task_is_recurring old
      /\ completion_date new = completion_date old
      /\ 0 < required_time new).

(** Descending by priority weight. *)
Definition weight_ge (a b : scored_task) : Prop :=
  priority_weight (TASK_DETAIL a) >= priority_weight (TASK_DETAIL b).

(** The buckets of the weekly status, as tests on a task row: the due date
    is not older than seven days before the reference date, and then the
    status and the due date decide. *)
Definition in_report (current_date : datetime) (t : task) : bool :=
  negb (due_date t <? date_of (current_date - timedelta_days 7)).

Definition counts_completed (current_date : datetime) (t : task) : bool :=
  in_report current_date t && String.eqb (status t) "COMPLETED".

Definition counts_missed (current_date : datetime) (t : task) : bool :=
  in_report current_date t && negb (String.eqb (status t) "COMPLETED")
  && (due_date t <? date_of current_date).

Definition counts_pending (current_date : datetime) (t : task) : bool :=
  in_report current_date t && negb (String.eqb (status t) "COMPLETED")
  && negb (due_date t <? date_of current_date).

(** Chronological order of two intervals: the first ends at or before the
    start of the second. *)
Definition before (a b : datetime * datetime) : Prop := snd a <= fst b.

(** ** Concrete inputs *)

Module Example_score.
(** Noon of 2024-01-01 (ordinal 738886), and a task due 30 days later. *)
Definition now : datetime := datetime_combine 738886 (12 * MICROS_PER_HOUR).
Definition essay : task :=
  mk_task 1 1 None "essay" 738916 MICROS_PER_HOUR 1 "PENDING" false None.
End Example_score.

Module Example_completion.
(** Task 1 of user 1 was completed on 2024-01-01; the request arrives at
    noon of 2024-01-05. *)
Definition report : task :=
  mk_task 1 1 None "report" 738880 MICROS_PER_HOUR 1
          "COMPLETED" false (Some 738886).
Definition db : database := mk_db [report] [] 1.
Definition now : datetime := datetime_combine 738890 (12 * MICROS_PER_HOUR).
End Example_completion.

Module Example_ties.
(** Three pending tasks due the same day; the first two have equal weight. *)
Definition now : datetime := datetime_combine 738886 (12 * MICROS_PER_HOUR).
Definition a : task :=
  mk_task 1 1 None "a" 738890 MICROS_PER_HOUR 1 "PENDING" false None.
Definition b : task :=
  mk_task 2 1 None "b" 738890 MICROS_PER_HOUR 1 "PENDING" false None.
Definition c : task :=
  mk_task 3 1 None "c" 738890 MICROS_PER_HOUR 2 "PENDING" false None.
End Example_ties.

Module Example_recent.
(** Six tasks of user 1, ids 1 to 6, all due on 2024-01-03; the request is
    made at noon of 2024-01-05. *)
Definition now : datetime := datetime_combine 738890 (12 * MICROS_PER_HOUR).
Definition row (id : Z) : task :=
  mk_task id 1 None "t" 738888 MICROS_PER_HOUR 1 "PENDING" false None.
Definition db : database :=
  mk_db [row 1; row 2; row 3; row 4; row 5; row 6] [] 1.
Definition complete (t : task) : task :=
  mk_task (task_id t) (task_user_id t) (subject_id t) (task_name t)
          738890 (required_time t) (priority_weight t)
          "COMPLETED" (task_is_recurring t) (Some 738890).
End Example_recent.

Module Example_recurrence.
(** A user with no schedule block; a gym hour from 09:00 to 10:00.
    2024-01-01 (ordinal 738886) is a Monday. *)
Definition db : database := mk_db [] [] 1.
Definition nine : Z := 9 * MICROS_PER_HOUR.
Definition ten : Z := 10 * MICROS_PER_HOUR.
(** Weekly, on the single day 2024-01-01, with no weekday ticked. *)
Definition no_day : activity_form :=
  mk_activity_form "Gym" "" "weekly" Missing (Parsed nine) (Parsed ten)
    (Parsed 738886) (Parsed 738886) [].
(** The edit of block 1 into a biweekly series with no weekday ticked. *)
Definition edit_no_day : edit_form :=
  mk_edit_form "Gym" (Parsed (datetime_combine 738886 nine))
    (Parsed (datetime_combine 738886 ten)) None "biweekly" []
    (Parsed 738886) (Parsed 738913) Missing.
End Example_recurrence.

Module Example_allocation.
(** Noon of Monday 2024-01-01. User 1 has a lecture the next day from 09:00
    to 10:00 and an essay that needs an hour and a half. *)
Definition now : datetime := datetime_combine 738886 (12 * MICROS_PER_HOUR).
Definition lecture : schedule_block :=
  mk_block 1 1 None "Lecture"
    (datetime_combine 738887 (9 * MICROS_PER_HOUR))
    (datetime_combine 738887 (10 * MICROS_PER_HOUR))
    true false "once" "".
Definition essay : task :=
  mk_task 1 1 None "essay" 738890 5400000000 1 "PENDING" false None.
Definition db : database := mk_db [essay] [lecture] 2.
(** A thesis that needs 100 hours, more than the 98 hours of a free week. *)
Definition thesis : task :=
  mk_task 1 1 None "thesis" 738890 (100 * MICROS_PER_HOUR) 1
          "PENDING" false None.
Definition free_db : database := mk_db [thesis] [] 1.
(** A trip that covers the nine days from the call on. *)
Definition trip : schedule_block :=
  mk_block 1 1 None "Trip" now (now + timedelta_days 9)
    true false "once" "".
Definition away_db : database := mk_db [essay] [trip] 2.
End Example_allocation.
(** * Properties *)

(** ** [ORDER BY] keeps the rows *)

Section OrderByFacts.
Context {A : Type} (key : A -> Z).

Lemma insert_by_perm (x : A) (l : list A) :
  Permutation (x :: l) (insert_by key x l).
Proof.
  induction l as [|y l IH]; simpl.
  - apply Permutation_refl.
  - destruct (key x <? key y).
    + apply Permutation_refl.
    + eapply perm_trans; [apply perm_swap|].
      now apply perm_skip.
Qed.

Lemma order_by_perm (l : list A) : Permutation l (order_by key l).
Proof.
  induction l as [|x l IH]; simpl.
  - constructor.
  - eapply perm_trans; [apply perm_skip, IH|apply insert_by_perm].
Qed.

Lemma order_by_In (l : list A) (x : A) :
  In x (order_by key l) <-> In x l.
Proof.
  split; apply Permutation_in;
    [apply Permutation_sym|]; apply order_by_perm.
Qed.

End OrderByFacts.

(** ** Conflict detection *)


Lemma no_block_overlaps_iff (blocks : list schedule_block) (s e : datetime) :
  no_block_overlaps blocks s e = true <->
  forall b, In b blocks -> ~ overlaps s e (start_time b) (end_time b).
Proof.
  unfold overlaps.
  induction blocks as [|b rest IH]; simpl.
  - split; [intros _ b []|reflexivity].
  - destruct (s <? end_time b) eqn:E1; destruct (e >? start_time b) eqn:E2;
      simpl; rewrite ?IH; clear IH.
    1: { split; [discriminate|]. intros H. exfalso.
         apply (H b); [now left|]. split; lia. }
    all: split;
      [ intros H b' [<-|Hin]; [lia|now apply H]
      | intros H b' Hin; apply H; now right ].
  Qed.

Lemma check_for_conflict_true_iff (db : database) (user_id : Z)
    (s e : datetime) :
  check_for_conflict db user_id s e = true <->
  forall b, In b (schedule_blocks db) -> block_user_id b = user_id ->
            ~ overlaps s e (start_time b) (end_time b).
Proof.
  unfold check_for_conflict, fetch_all_schedule_blocks.
  rewrite no_block_overlaps_iff. split.
  - intros H b Hin Hu. apply H. rewrite order_by_In, filter_In.
    split; [assumption|]. now apply Z.eqb_eq.
  - intros H b Hin. rewrite order_by_In, filter_In in Hin.
    destruct Hin as [Hin Hu]. apply H; [assumption|]. now apply Z.eqb_eq.
Qed.

(** C9. [check_for_conflict] answers "available" exactly when no schedule
    block of the user, fixed or flexible, overlaps the candidate as a
    half-open interval; in particular, when every block of the user ends
    at or before the candidate's start or starts at or after its end, a
    touching boundary included, the answer is "available". *)
Theorem check_for_conflict_half_open :
  forall (db : database) (user_id : Z) (new_start new_end : datetime),
    (check_for_conflict db user_id new_start new_end = true <->
     forall b, In b (schedule_blocks db) -> block_user_id b = user_id ->
               ~ overlaps new_start new_end (start_time b) (end_time b))
    /\
    ((forall b, In b (schedule_blocks db) -> block_user_id b = user_id ->
                end_time b <= new_start \/ new_end <= start_time b) ->
     check_for_conflict db user_id new_start new_end = true).
Proof.
  intros db user_id s e.
  split; [apply check_for_conflict_true_iff|].
  intros Htouch. apply check_for_conflict_true_iff.
  intros b Hin Hu [H1 H2].
  destruct (Htouch b Hin Hu); lia.
Qed.

(** ** Priority scores *)


(** A row of the [tasks] table reaches [get_days_until_due] with a [str]
    due date, which is not a [datetime]: the days remaining are 0 and the
    score is the maximum urgency plus the weight, whatever the due date. *)
Lemma score_task_stored_row (today : datetime) (t : task) :
  SCORE (score_task today t) = 900 + priority_weight t.
Proof. reflexivity. Qed.

(** When the due-date value is a [datetime], the helper computes the
    clamped day difference. *)
Lemma get_days_until_due_datetime (today due : datetime) :
  get_days_until_due today (DueDatetime due)
  = Z.max 0 (date_of due - date_of today).
Proof. reflexivity. Qed.


(** C4, on the code. For the pending task [essay], due 30 days after the
    call, [task_prioritization] computes the score 901, where the formula of
    the specification gives 601. *)
Theorem score_of_task_due_in_30_days :
  task_prioritization Example_score.now [Example_score.essay]
    = [mk_scored Example_score.essay 901]
  /\ specified_score Example_score.now Example_score.essay = 601.
Proof. split; reflexivity. Qed.

(** ** Completing a task *)


(** C6, on the code. Completing the already COMPLETED task [report] again
    flashes the success message and stamps the completion date anew: the
    stored date moves from 2024-01-01 to the day of the request. *)
Theorem complete_task_restamps_completed_task :
  let db := Example_completion.db in
  let r := complete_task Example_completion.now 1 1 db in
  option_map completion_date (get_task_by_id 1 db) = Some (Some 738886)
  /\ fst r = flash_success "Task marked completed. Schedule adjusted."
  /\ option_map completion_date (get_task_by_id 1 (snd r))
     = Some (Some 738890).
Proof. repeat split. Qed.

(** ** Selection sort *)

Lemma score_at_cons (a : scored_task) (l : list scored_task) (j : nat) :
  score_at (a :: l) (S j) = score_at l j.
Proof. reflexivity. Qed.

Lemma find_max_index_cons (a : scored_task) (l : list scored_task) :
  forall (n m j : nat),
    find_max_index (a :: l) (S m) (S j) n = S (find_max_index l m j n).
Proof.
  induction n as [|n IH]; intros m j; simpl; [reflexivity|].
  rewrite !score_at_cons.
  destruct (score_at l j >? score_at l m); apply IH.
Qed.

Lemma swap_cons {A : Type} (a : A) (l : list A) (i j : nat) :
  swap (a :: l) (S i) (S j) = a :: swap l i j.
Proof.
  unfold swap; simpl.
  destruct (nth_error l i); [|reflexivity].
  destruct (nth_error l j); reflexivity.
Qed.

Lemma selection_loop_cons (a : scored_task) :
  forall (n i : nat) (l : list scored_task),
    selection_loop (a :: l) (S i) n = a :: selection_loop l i n.
Proof.
  induction n as [|n IH]; intros i l; [reflexivity|].
  cbn [selection_loop List.length].
  replace (S (List.length l) - S (S i))%nat with (List.length l - S i)%nat
    by lia.
  rewrite find_max_index_cons.
  cbn [Nat.eqb].
  destruct (Nat.eqb (find_max_index l i (S i) (List.length l - S i)) i).
  - apply IH.
  - rewrite swap_cons. apply IH.
Qed.

(** The inner loop returns a position of the greatest score among the start
    position and the positions it scans. *)
Lemma find_max_index_spec (l : list scored_task) :
  forall (n m j : nat),
    (m < j)%nat -> (j + n = List.length l)%nat ->
    let r := find_max_index l m j n in
    (r = m \/ (j <= r)%nat) /\ (r < List.length l)%nat
    /\ score_at l m <= score_at l r
    /\ forall k, (j <= k < List.length l)%nat -> score_at l k <= score_at l r.
Proof.
  induction n as [|n IH]; intros m j Hm Hn; simpl.
  - repeat split; lia.
  - set (m' := if score_at l j >? score_at l m then j else m).
    assert (Hm' : (m' < S j)%nat /\ (m' = m \/ m' = j)
                  /\ score_at l m <= score_at l m'
                  /\ score_at l j <= score_at l m').
    { unfold m'. destruct (score_at l j >? score_at l m) eqn:E.
      - repeat split; lia.
      - repeat split; lia. }
    destruct Hm' as (H1 & H2 & H3 & H4).
    destruct (IH m' (S j) H1 ltac:(lia)) as (R1 & R2 & R3 & R4).
    repeat split.
    + destruct R1 as [R1|R1]; [|right; lia].
      rewrite R1. destruct H2 as [->| ->]; [now left|right; lia].
    + exact R2.
    + lia.
    + intros k Hk. destruct (Nat.eq_dec k j) as [->|Hne]; [lia|].
      apply R4. lia.
Qed.

Lemma set_nth_perm {A : Type} (x b : A) :
  forall (l : list A) (r : nat),
    nth_error l r = Some b -> Permutation (x :: l) (b :: set_nth l r x).
Proof.
  induction l as [|y l IH]; intros [|r] H; simpl in *; try discriminate.
  - injection H as ->. apply perm_swap.
  - eapply perm_trans; [apply perm_swap|].
    eapply perm_trans; [apply perm_skip, (IH r H)|].
    apply perm_swap.
Qed.

Lemma score_at_In (l : list scored_task) (e : scored_task) :
  In e l -> exists k, (k < List.length l)%nat /\ score_at l k = SCORE e.
Proof.
  intros Hin. destruct (In_nth_error l e Hin) as [k Hk].
  exists k. split.
  - apply nth_error_Some. rewrite Hk. discriminate.
  - unfold score_at. now rewrite Hk.
Qed.

(** One round of the outer loop puts an entry of greatest score in front
    and leaves the others, permuted, behind it. *)
Lemma selection_sort_tasks_step (x : scored_task) (tl : list scored_task) :
  tl <> [] ->
  exists y tl',
    selection_sort_tasks (x :: tl) = y :: selection_sort_tasks tl'
    /\ Permutation (x :: tl) (y :: tl')
    /\ Forall (score_ge y) tl'.
Proof.
  intros Hne.
  assert (Hlen : exists k, List.length tl = S k).
  { destruct tl; [contradiction|]. simpl. eauto. }
  destruct Hlen as [k Hk].
  unfold selection_sort_tasks at 1.
  cbn [List.length]. rewrite Nat.sub_succ, Nat.sub_0_r, Hk.
  cbn [selection_loop List.length]. rewrite Nat.sub_succ, Nat.sub_0_r, Hk.
  destruct (find_max_index_spec (x :: tl) (S k) 0 1) as (R1 & R2 & R3 & R4);
    [lia|simpl; lia|].
  set (r := find_max_index (x :: tl) 0 1 (S k)) in *.
  assert (Hmax : forall e, In e (x :: tl) ->
                           SCORE e <= score_at (x :: tl) r).
  { intros e He. destruct (score_at_In _ _ He) as (i & Hi & <-).
    destruct i; [exact R3|apply R4; lia]. }
  destruct r as [|r'] eqn:Er.
  - cbn [Nat.eqb]. exists x, tl. repeat split.
    + rewrite selection_loop_cons. unfold selection_sort_tasks.
      now rewrite Hk, Nat.sub_succ, Nat.sub_0_r.
    + apply Permutation_refl.
    + apply Forall_forall. intros e He. unfold score_ge.
      specialize (Hmax e (or_intror He)). unfold score_at in Hmax.
      simpl in Hmax. lia.
  - cbn [Nat.eqb].
    destruct (nth_error tl r') as [b|] eqn:Eb.
    2: { apply nth_error_None in Eb. simpl in R2. lia. }
    assert (Hsw : swap (x :: tl) 0 (S r') = b :: set_nth tl r' x).
    { unfold swap. simpl. now rewrite Eb. }
    rewrite Hsw, selection_loop_cons.
    pose proof (set_nth_perm x b tl r' Eb) as Hperm.
    exists b, (set_nth tl r' x). repeat split.
    + unfold selection_sort_tasks.
      assert (Hl : List.length (set_nth tl r' x) = S k).
      { apply Permutation_length in Hperm. simpl in Hperm. lia. }
      now rewrite Hl, Nat.sub_succ, Nat.sub_0_r.
    + exact Hperm.
    + apply Forall_forall. intros e He. unfold score_ge.
      assert (Hin : In e (x :: tl)).
      { eapply Permutation_in; [apply Permutation_sym, Hperm|now right]. }
      specialize (Hmax e Hin). unfold score_at in Hmax. simpl in Hmax.
      rewrite Eb in Hmax. lia.
Qed.

Lemma selection_sort_tasks_sorted_perm :
  forall (n : nat) (l : list scored_task),
    List.length l = n ->
    Permutation l (selection_sort_tasks l)
    /\ StronglySorted score_ge (selection_sort_tasks l).
Proof.
  induction n as [|n IH]; intros l Hl.
  - destruct l; [|discriminate]. split; constructor.
  - destruct l as [|x tl]; [discriminate|]. injection Hl as Hl.
    destruct tl as [|x' tl'] eqn:Etl.
    + split; [apply Permutation_refl|]. repeat constructor.
    + rewrite <- Etl in *.
      destruct (selection_sort_tasks_step x tl) as (y & rest & E & P & F).
      { rewrite Etl. discriminate. }
      assert (Hr : List.length rest = n).
      { apply Permutation_length in P. simpl in P. lia. }
      destruct (IH rest Hr) as [P' S'].
      rewrite E. split.
      * eapply perm_trans; [exact P|]. now apply perm_skip.
      * constructor; [exact S'|].
        eapply Permutation_Forall; [exact P'|exact F].
Qed.

(** C3, as the code has it. For every list of pending tasks,
    [task_prioritization] returns the scored tasks rearranged and in
    descending order of score. *)
Theorem task_prioritization_sorted_desc :
  forall (today : datetime) (task_records : list task),
    Permutation (map (score_task today) task_records)
                (task_prioritization today task_records)
    /\ StronglySorted score_ge (task_prioritization today task_records).
Proof.
  intros today task_records. unfold task_prioritization.
  exact (selection_sort_tasks_sorted_perm _ _ eq_refl).
Qed.

(** C3, counterexample. The tasks [a] and [b] have equal scores and [a]
    comes first in the input; the swap of the selection sort moves [a]
    behind [b], where a stable sort keeps [a] ahead. *)
Lemma task_prioritization_not_stable :
  let input := [Example_ties.a; Example_ties.b; Example_ties.c] in
  let scored := map (score_task Example_ties.now) input in
  map (fun e => task_id (TASK_DETAIL e))
      (task_prioritization Example_ties.now input) = [3; 2; 1]
  /\ map (fun e => task_id (TASK_DETAIL e)) (stable_sort_desc scored)
     = [3; 1; 2]
  /\ map SCORE scored = [901; 901; 902]
  /\ task_prioritization Example_ties.now input <> stable_sort_desc scored.
Proof.
  repeat split. intros H. discriminate H.
Qed.

(** ** Weekly status *)

Section OrderBySorted.
Context {A : Type} (key : A -> Z).

Lemma insert_by_sorted (x : A) (l : list A) :
  StronglySorted (fun a b => key a <= key b) l ->
  StronglySorted (fun a b => key a <= key b) (insert_by key x l).
Proof.
  induction 1 as [|y l Hs IH Hy]; simpl.
  - repeat constructor.
  - destruct (key x <? key y) eqn:E.
    + constructor; [now constructor|].
      constructor; [lia|].
      eapply Forall_impl; [|exact Hy]. simpl. intros; lia.
    + constructor; [exact IH|].
      eapply Permutation_Forall; [apply insert_by_perm|].
      constructor; [lia|exact Hy].
Qed.

Lemma order_by_sorted (l : list A) :
  StronglySorted (fun a b => key a <= key b) (order_by key l).
Proof.
  induction l; simpl; [constructor|now apply insert_by_sorted].
Qed.

Lemma insert_by_map (f : A -> A) (x : A) (l : list A) :
  (forall a, key (f a) = key a) ->
  insert_by key (f x) (map f l) = map f (insert_by key x l).
Proof.
  intros Hf. induction l as [|y l IH]; simpl; [reflexivity|].
  rewrite !Hf. destruct (key x <? key y); simpl; [reflexivity|].
  now rewrite IH.
Qed.

Lemma order_by_map (f : A -> A) (l : list A) :
  (forall a, key (f a) = key a) ->
  order_by key (map f l) = map f (order_by key l).
Proof.
  intros Hf. induction l as [|x l IH]; simpl; [reflexivity|].
  now rewrite IH, insert_by_map.
Qed.

(** In an ascending list, when at least [n] keys lie below [c], the first
    [n] rows all have their key below [c]. *)
Lemma sorted_firstn_below (c : Z) :
  forall (l : list A) (n : nat),
    StronglySorted (fun a b => key a <= key b) l ->
    (n <= List.length (filter (fun a => (key a <? c)%Z) l))%nat ->
    Forall (fun a => key a < c) (firstn n l).
Proof.
  induction l as [|x l IH]; intros n Hs Hn.
  - rewrite firstn_nil. constructor.
  - destruct n as [|n]; [constructor|].
    inversion Hs as [|? ? Hs' Hx]; subst.
    simpl in Hn. destruct (key x <? c) eqn:E.
    + simpl in Hn. simpl. constructor; [lia|].
      apply IH; [exact Hs'|lia].
    + assert (Hnil : filter (fun a => key a <? c) l = []).
      { clear - Hx E. induction Hx as [|y l Hy _ IHl]; simpl; [reflexivity|].
        replace (key y <? c) with false by (symmetry; apply Z.ltb_ge; lia).
        exact IHl. }
      rewrite Hnil in Hn. simpl in Hn. lia.
Qed.
End OrderBySorted.

Lemma filter_length_perm {A : Type} (p : A -> bool) (l l' : list A) :
  Permutation l l' ->
  List.length (filter p l) = List.length (filter p l').
Proof.
  induction 1 as [|x l l' _ IH|x y l|l l' l'' _ IH1 _ IH2]; simpl.
  - reflexivity.
  - destruct (p x); simpl; now rewrite IH.
  - destruct (p x), (p y); reflexivity.
  - now rewrite IH1.
Qed.

Lemma filter_map_preserved {A : Type} (p : A -> bool) (f : A -> A)
    (l : list A) :
  (forall a, p (f a) = p a) -> filter p (map f l) = map f (filter p l).
Proof.
  intros Hf. induction l as [|x l IH]; simpl; [reflexivity|].
  rewrite Hf. destruct (p x); simpl; now rewrite IH.
Qed.

Lemma total_fold_count_task (current_date : datetime) (l : list task) :
  forall m : metrics,
    (total (fold_left (count_task current_date) l m)
     <= total m + List.length l)%nat.
Proof.
  induction l as [|t l IH]; intros m; simpl; [lia|].
  eapply Nat.le_trans; [apply IH|].
  unfold count_task, total.
  destruct (due_date t <? date_of (current_date - timedelta_days 7));
    [simpl; lia|].
  destruct (String.eqb (status t) "COMPLETED"); [simpl; lia|].
  destruct (due_date t <? date_of current_date); simpl; lia.
Qed.

(** A task with at least five newer tasks of the same user is not among
    the rows that [fetch_recent_tasks] returns, whatever its columns hold. *)
Lemma fetch_recent_tasks_ignores_older (user_id old : Z) (g : task -> task)
    (db : database) :
  (forall t, task_id (g t) = task_id t) ->
  (forall t, task_user_id (g t) = task_user_id t) ->
  (5 <= List.length (newer_tasks user_id old db))%nat ->
  fetch_recent_tasks user_id 5 (rewrite_task old g db)
  = fetch_recent_tasks user_id 5 db.
Proof.
  intros Hid Hu Hnew. unfold fetch_recent_tasks, rewrite_task.
  cbn [tasks].
  set (f := fun t => if task_id t =? old then g t else t).
  assert (Hfid : forall t, task_id (f t) = task_id t).
  { intros t. unfold f. destruct (task_id t =? old); [apply Hid|reflexivity]. }
  assert (Hfu : forall t, task_user_id (f t) = task_user_id t).
  { intros t. unfold f. destruct (task_id t =? old); [apply Hu|reflexivity]. }
  rewrite filter_map_preserved by (intros t; now rewrite Hfu).
  rewrite order_by_map by (intros t; now rewrite Hfid).
  rewrite firstn_map.
  set (mine := filter (fun t => task_user_id t =? user_id) (tasks db)) in *.
  assert (Hrec : Forall (fun t => - task_id t < - old)
                   (firstn 5 (order_by (fun t => - task_id t) mine))).
  { apply sorted_firstn_below; [apply order_by_sorted|].
    rewrite <- (filter_length_perm _ _ _
                  (order_by_perm (fun t => - task_id t) mine)).
    unfold newer_tasks in Hnew. fold mine in Hnew.
    erewrite filter_ext; [exact Hnew|].
    intros t. simpl.
    destruct (old <? task_id t) eqn:E1;
      destruct (- task_id t <? - old) eqn:E2; try reflexivity; lia. }
  rewrite <- (map_id (firstn 5 (order_by (fun t => - task_id t) mine))) at 2.
  apply map_ext_in. intros t Ht.
  rewrite Forall_forall in Hrec. specialize (Hrec t Ht).
  unfold f. replace (task_id t =? old) with false; [reflexivity|].
  symmetry. apply Z.eqb_neq. lia.
Qed.

(** C10. [calculate_weekly_status] counts at most five tasks, and a task
    of the user that has at least five newer tasks (tasks of greater id) of
    that user is counted in no bucket: rewriting its status, due date or
    any other column but its id and owner leaves the three counts as they
    are. *)
Theorem weekly_status_counts_five_most_recent :
  forall (current_date : datetime) (user_id old : Z) (g : task -> task)
         (db : database),
    (forall t, task_id (g t) = task_id t) ->
    (forall t, task_user_id (g t) = task_user_id t) ->
    (5 <= List.length (newer_tasks user_id old db))%nat ->
    calculate_weekly_status current_date user_id (rewrite_task old g db)
    = calculate_weekly_status current_date user_id db
    /\ (total (calculate_weekly_status current_date user_id db) <= 5)%nat.
Proof.
  intros current_date user_id old g db Hid Hu Hnew.
  unfold calculate_weekly_status. split.
  - now rewrite fetch_recent_tasks_ignores_older.
  - eapply Nat.le_trans; [apply total_fold_count_task|].
    unfold fetch_recent_tasks, total.
    cbn [M_COMPLETED M_PENDING M_MISSED].
    rewrite length_firstn. lia.
Qed.

(** Six tasks, the oldest rewritten from PENDING and overdue to COMPLETED
    today: the counts stay 0 completed, 0 pending, 5 missed. *)
Lemma weekly_status_counts_five_most_recent_witness :
  calculate_weekly_status Example_recent.now 1
    (rewrite_task 1 Example_recent.complete Example_recent.db)
  = mk_metrics 0 0 5
  /\ calculate_weekly_status Example_recent.now 1 Example_recent.db
     = mk_metrics 0 0 5.
Proof.
  pose proof (weekly_status_counts_five_most_recent
                Example_recent.now 1 1 Example_recent.complete
                Example_recent.db
                (fun t => eq_refl) (fun t => eq_refl)
                ltac:(vm_compute; lia)) as [H _].
  split; [rewrite H|]; reflexivity.
Defined.

(** ** Recurrence: the weekday selection *)

Lemma weekday_range (d : date) : 0 <= weekday d < 7.
Proof. unfold weekday. apply Z.mod_pos_bound. lia. Qed.

Lemma str_weekday_in_all (d : date) :
  existsb (String.eqb (str_weekday d)) all_weekdays = true.
Proof.
  unfold str_weekday. pose proof (weekday_range d) as H.
  assert (E : weekday d = 0 \/ weekday d = 1 \/ weekday d = 2
              \/ weekday d = 3 \/ weekday d = 4 \/ weekday d = 5
              \/ weekday d = 6) by lia.
  destruct E as [E|[E|[E|[E|[E|[E|E]]]]]]; rewrite E; reflexivity.
Qed.

Lemma expand_recurrence_empty_is_all (user_id : Z)
    (name pattern note : string) (recurrence_start : date)
    (t_start t_end : Z) :
  forall (n : nat) (current_date : date) (count : Z) (db : database),
    expand_recurrence true user_id name pattern note [] recurrence_start
      t_start t_end n current_date count db
    = expand_recurrence true user_id name pattern note all_weekdays
        recurrence_start t_start t_end n current_date count db.
Proof.
  induction n as [|n IH]; intros current_date count db; [reflexivity|].
  cbn [expand_recurrence].
  replace (day_selected true all_weekdays current_date) with true.
  2: { unfold day_selected. now rewrite str_weekday_in_all. }
  replace (day_selected true [] current_date) with true by reflexivity.
  rewrite !IH. reflexivity.
Qed.

Lemma series_pattern_not_once (pattern : string) :
  is_series_pattern pattern = true -> String.eqb pattern "once" = false.
Proof.
  unfold is_series_pattern. intros H.
  apply orb_true_iff in H. destruct H as [H|H];
    apply String.eqb_eq in H; subst; reflexivity.
Qed.

(** C5, as the code has it. A weekly or biweekly recurrence posted to
    [edit_schedule_block] with no weekday selected is refused with an error
    message and the database is left as it was; posted to [add_activity],
    it is not refused: the handler does what it does when all seven
    weekdays are selected. *)
Theorem empty_weekday_set_edit_rejects_add_selects_all :
  forall (user_id id : Z) (edit : edit_form) (add : activity_form)
         (db : database),
    is_series_pattern (e_recurrence_pattern edit) = true ->
    e_days edit = [] ->
    is_series_pattern (f_recurrence_pattern add) = true ->
    f_days add = [] ->
    (exists message,
        edit_schedule_block user_id id edit db = (flash_error message, db))
    /\ add_activity user_id add db
       = add_activity user_id (with_days add all_weekdays) db.
Proof.
  intros user_id id edit add db He Hd Ha Hda. split.
  - unfold edit_schedule_block.
    destruct (get_schedule_block_by_id id user_id db) as [block|];
      [|eexists; reflexivity].
    destruct (e_start_time edit) as [| |new_start];
      try (eexists; reflexivity).
    destruct (e_end_time edit) as [| |new_end];
      try (eexists; reflexivity).
    destruct (new_start >=? new_end); [eexists; reflexivity|].
    rewrite He. unfold regenerate_series. rewrite Hd.
    destruct (is_recurring block); eexists; reflexivity.
  - unfold add_activity, with_days.
    cbn [f_activity_name f_notes f_recurrence_pattern f_one_time_date
         f_start_time_only f_end_time_only f_recurrence_start_date
         f_recurrence_end_date f_days].
    rewrite (series_pattern_not_once _ Ha), Hda.
    destruct (_ || _); [reflexivity|].
    destruct (f_recurrence_start_date add); try reflexivity.
    destruct (f_recurrence_end_date add); try reflexivity.
    destruct (_ <? _); [reflexivity|].
    destruct (f_start_time_only add); try reflexivity.
    destruct (f_end_time_only add); try reflexivity.
    now rewrite expand_recurrence_empty_is_all.
Qed.

(** The edit of a block into a biweekly series and the new weekly
    activity, both with no weekday selected: the edit is refused, the new
    activity is inserted on its one day. *)
Lemma empty_weekday_set_witness :
  (exists message,
      edit_schedule_block 1 1 Example_recurrence.edit_no_day
        Example_recurrence.db
      = (flash_error message, Example_recurrence.db))
  /\ add_activity 1 Example_recurrence.no_day Example_recurrence.db
     = add_activity 1
         (with_days Example_recurrence.no_day all_weekdays)
         Example_recurrence.db.
Proof.
  apply (empty_weekday_set_edit_rejects_add_selects_all 1 1
           Example_recurrence.edit_no_day Example_recurrence.no_day
           Example_recurrence.db); reflexivity.
Defined.

(** C5, counterexample. A weekly activity posted to [add_activity] with
    no weekday selected, over the one-day range 2024-01-01, is accepted: one
    occurrence is flashed and one fixed block is inserted. *)
Lemma add_activity_accepts_empty_weekday_set :
  add_activity 1 Example_recurrence.no_day Example_recurrence.db
  = (flash_occurrences 1,
     mk_db [] [mk_block 1 1 None "Gym"
                 (datetime_combine 738886 Example_recurrence.nine)
                 (datetime_combine 738886 Example_recurrence.ten)
                 true true "weekly" ""] 2).
Proof. reflexivity. Qed.

(** ** Recurrence: the biweekly rule *)

(** Inserting a block that the candidate does not overlap leaves the
    answer of the conflict check as it was. *)
Lemma check_for_conflict_insert_apart (db : database) (user_id : Z)
    (tid : option Z) (name pattern note : string) (fixed recurring : bool)
    (s e s' e' : datetime) :
  ~ overlaps s' e' s e ->
  check_for_conflict
    (insert_schedule_block user_id tid name s e fixed recurring pattern
       note db) user_id s' e'
  = check_for_conflict db user_id s' e'.
Proof.
  intros Hfree. apply eq_true_iff_eq.
  rewrite !check_for_conflict_true_iff. cbn [insert_schedule_block schedule_blocks].
  split.
  - intros H b Hin. apply H. apply in_or_app. now left.
  - intros H b Hin Hu. apply in_app_or in Hin.
    destruct Hin as [Hin|[<-|[]]]; [now apply H|exact Hfree].
Qed.

(** Occurrences of one series on two different days do not overlap. *)
Lemma occurrences_apart (t_start t_end : Z) (d d' : date) :
  0 <= t_start <= MICROS_PER_DAY -> 0 <= t_end <= MICROS_PER_DAY ->
  d <> d' ->
  ~ overlaps (datetime_combine d t_start) (datetime_combine d t_end)
             (datetime_combine d' t_start) (datetime_combine d' t_end).
Proof.
  unfold overlaps, datetime_combine, MICROS_PER_DAY, MICROS_PER_HOUR.
  intros Hs He Hd [H1 H2]. lia.
Qed.

Lemma occurrence_inj (t_start t_end : Z) (d d' : date) :
  occurrence t_start t_end d = occurrence t_start t_end d' -> d = d'.
Proof.
  unfold occurrence, datetime_combine, MICROS_PER_DAY, MICROS_PER_HOUR.
  intros H. injection H as H _. lia.
Qed.

Section Expansion.
Variables (empty_selects_all : bool) (user_id : Z).
Variables (name pattern note : string) (selected_days : list string).
Variables (recurrence_start : date) (t_start t_end : Z).
Hypothesis t_start_time : 0 <= t_start <= MICROS_PER_DAY.
Hypothesis t_end_time : 0 <= t_end <= MICROS_PER_DAY.

Lemma expand_recurrence_spec :
  forall (n : nat) (current_date : date) (count : Z) (db : database),
    let r := expand_recurrence empty_selects_all user_id name pattern note
               selected_days recurrence_start t_start t_end
               n current_date count db in
    exists new,
      schedule_blocks (snd r) = schedule_blocks db ++ new
      /\ fst r = count + Z.of_nat (List.length new)
      /\ forall d,
           In (occurrence t_start t_end d) (map block_interval new) <->
           current_date <= d < current_date + Z.of_nat n
           /\ inserted_on empty_selects_all user_id pattern selected_days
             recurrence_start t_start t_end db d.
Proof.
  induction n as [|n IH]; intros current_date count db.
  - exists []. cbn. rewrite app_nil_r.
    split; [reflexivity|]. split; [lia|].
    intros d. split; [intros []|intros [? _]; lia].
  - cbn zeta. cbn [expand_recurrence].
    assert (Skip :
      ~ inserted_on empty_selects_all user_id pattern selected_days
             recurrence_start t_start t_end db current_date ->
      exists new,
        schedule_blocks (snd (expand_recurrence empty_selects_all user_id
           name pattern note selected_days recurrence_start t_start t_end
           n (current_date + 1) count db)) = schedule_blocks db ++ new
        /\ fst (expand_recurrence empty_selects_all user_id
           name pattern note selected_days recurrence_start t_start t_end
           n (current_date + 1) count db)
           = count + Z.of_nat (List.length new)
        /\ forall d,
           In (occurrence t_start t_end d) (map block_interval new) <->
           current_date <= d < current_date + Z.of_nat (S n)
           /\ inserted_on empty_selects_all user_id pattern selected_days
             recurrence_start t_start t_end db d).
    { intros Hnot.
      destruct (IH (current_date + 1) count db) as (new & Hsb & Hc & Hiff).
      exists new. split; [exact Hsb|]. split; [exact Hc|].
      intros d. rewrite Hiff, Nat2Z.inj_succ. split.
      - intros [Hr Hi]. split; [lia|exact Hi].
      - intros [Hr Hi]. split; [|exact Hi].
        destruct (Z.eq_dec d current_date) as [->|Hne];
          [contradiction|lia]. }
    destruct (day_selected empty_selects_all selected_days current_date)
      eqn:Esel.
    2: { apply Skip. intros (H & _). congruence. }
    destruct (datetime_combine current_date t_end
              <=? datetime_combine current_date t_start) eqn:Etime.
    1: { apply Skip. intros (_ & H & _).
         unfold datetime_combine in Etime. lia. }
    destruct (String.eqb pattern "biweekly"
              && negb (((current_date - recurrence_start) / 7) mod 2 =? 0))
      eqn:Eweek.
    1: { apply Skip. intros (_ & _ & H & _).
         apply andb_true_iff in Eweek. destruct Eweek as [Ep Eodd].
         apply String.eqb_eq in Ep. specialize (H Ep).
         unfold on_week in H. rewrite H in Eodd. discriminate. }
    destruct (check_for_conflict db user_id
                (datetime_combine current_date t_start)
                (datetime_combine current_date t_end)) eqn:Efree.
    2: { apply Skip. intros (_ & _ & _ & H). congruence. }
    set (db1 := insert_schedule_block user_id None name
                  (datetime_combine current_date t_start)
                  (datetime_combine current_date t_end)
                  true true pattern note db).
    destruct (IH (current_date + 1) (count + 1) db1)
      as (new & Hsb & Hc & Hiff).
    exists (mk_block (next_block_id db) user_id None name
              (datetime_combine current_date t_start)
              (datetime_combine current_date t_end)
              true true pattern note :: new).
    split; [|split].
    + rewrite Hsb. unfold db1. cbn [insert_schedule_block schedule_blocks].
      now rewrite <- app_assoc.
    + rewrite Hc. cbn [List.length]. lia.
    + intros d. cbn [map block_interval start_time end_time In].
      fold (block_interval). rewrite Hiff, Nat2Z.inj_succ.
      destruct (Z.eq_dec d current_date) as [->|Hne].
      * split; [intros _|intros _; left; reflexivity].
        split; [lia|]. repeat split.
        -- exact Esel.
        -- unfold datetime_combine in Etime. lia.
        -- intros Hp. apply andb_false_iff in Eweek.
           destruct Eweek as [Ep|Eodd].
           ++ subst pattern. discriminate Ep.
           ++ unfold on_week. apply negb_false_iff in Eodd. lia.
        -- exact Efree.
      * assert (Hsame :
          check_for_conflict db1 user_id (datetime_combine d t_start)
            (datetime_combine d t_end)
          = check_for_conflict db user_id (datetime_combine d t_start)
              (datetime_combine d t_end)).
        { apply check_for_conflict_insert_apart.
          now apply occurrences_apart. }
        unfold inserted_on. rewrite Hsame. split.
        -- intros [Heq|[Hr Hi]].
           ++ apply occurrence_inj in Heq. congruence.
           ++ split; [lia|exact Hi].
        -- intros [Hr Hi]. right. split; [lia|exact Hi].
Qed.
End Expansion.

(** C7. In an expansion with pattern biweekly over the range from
    [range_start] to [range_end], the occurrence of day [d] is inserted
    exactly when [d] lies in the range, its weekday is selected, the time
    of day is a proper interval, the occurrence is free in the database the
    expansion started from, and [floor((d - range_start) / 7) mod 2 = 0]:
    the week parity is counted from [range_start] for every selected
    weekday alike.  The count returned is the number of blocks inserted. *)
Theorem biweekly_parity_anchored_at_range_start :
  forall (empty_selects_all : bool) (user_id : Z) (name note : string)
         (selected_days : list string) (range_start range_end : date)
         (t_start t_end : Z) (db : database),
    0 <= t_start <= MICROS_PER_DAY ->
    0 <= t_end <= MICROS_PER_DAY ->
    let r := expand_recurrence empty_selects_all user_id name "biweekly"
               note selected_days range_start t_start t_end
               (days_in_range range_start range_end) range_start 0 db in
    exists new,
      schedule_blocks (snd r) = schedule_blocks db ++ new
      /\ fst r = Z.of_nat (List.length new)
      /\ forall d,
           In (occurrence t_start t_end d) (map block_interval new) <->
           range_start <= d <= range_end
           /\ day_selected empty_selects_all selected_days d = true
           /\ t_start < t_end
           /\ on_week range_start d
           /\ check_for_conflict db user_id (datetime_combine d t_start)
                (datetime_combine d t_end) = true.
Proof.
  intros empty_selects_all user_id name note selected_days range_start
         range_end t_start t_end db Hs He r.
  destruct (expand_recurrence_spec empty_selects_all user_id name
              "biweekly" note selected_days range_start t_start t_end
              Hs He (days_in_range range_start range_end) range_start 0 db)
    as (new & Hsb & Hc & Hiff).
  exists new. split; [exact Hsb|]. split; [exact Hc|].
  intros d. rewrite Hiff. unfold inserted_on, days_in_range.
  split.
  - intros (Hr & Hsel & Ht & Hw & Hf).
    repeat split; try assumption; try lia. now apply Hw.
  - intros (Hr & Hsel & Ht & Hw & Hf).
    split; [lia|]. split; [exact Hsel|]. split; [exact Ht|].
    split; [intros _; exact Hw|exact Hf].
Qed.

(** Biweekly on Mondays over the 28 days from Monday 2024-01-01, 09:00 to
    10:00, for a user with no block. *)
Lemma biweekly_parity_witness :
  (0 <= Example_recurrence.nine <= MICROS_PER_DAY
   /\ 0 <= Example_recurrence.ten <= MICROS_PER_DAY)
  /\ exists new,
      schedule_blocks
        (snd (expand_recurrence false 1 "Gym" "biweekly" "" ["0"%string]
                738886 Example_recurrence.nine Example_recurrence.ten
                (days_in_range 738886 738913) 738886 0
                Example_recurrence.db))
      = schedule_blocks Example_recurrence.db ++ new
      /\ fst (expand_recurrence false 1 "Gym" "biweekly" "" ["0"%string]
                738886 Example_recurrence.nine Example_recurrence.ten
                (days_in_range 738886 738913) 738886 0
                Example_recurrence.db)
         = Z.of_nat (List.length new)
      /\ forall d,
           In (occurrence Example_recurrence.nine Example_recurrence.ten d)
              (map block_interval new) <->
           738886 <= d <= 738913
           /\ day_selected false ["0"%string] d = true
           /\ Example_recurrence.nine < Example_recurrence.ten
           /\ on_week 738886 d
           /\ check_for_conflict Example_recurrence.db 1
                (datetime_combine d Example_recurrence.nine)
                (datetime_combine d Example_recurrence.ten) = true.
Proof.
  assert (H9 : 0 <= Example_recurrence.nine <= MICROS_PER_DAY)
    by (vm_compute; split; discriminate).
  assert (H10 : 0 <= Example_recurrence.ten <= MICROS_PER_DAY)
    by (vm_compute; split; discriminate).
  split; [split; assumption|].
  exact (biweekly_parity_anchored_at_range_start false 1 "Gym" ""
           ["0"%string] 738886 738913 Example_recurrence.nine
           Example_recurrence.ten Example_recurrence.db H9 H10).
Defined.

(** The same expansion, run: two occurrences, on the Mondays of weeks 0 and
    2 (2024-01-01 and 2024-01-15). *)
Example biweekly_mondays_over_28_days :
  let r := expand_recurrence false 1 "Gym" "biweekly" "" ["0"%string]
             738886 Example_recurrence.nine Example_recurrence.ten
             (days_in_range 738886 738913) 738886 0 Example_recurrence.db in
  fst r = 2
  /\ map block_interval (schedule_blocks (snd r))
     = [occurrence Example_recurrence.nine Example_recurrence.ten 738886;
        occurrence Example_recurrence.nine Example_recurrence.ten 738900].
Proof. split; vm_compute; reflexivity. Qed.

(** ** Intervals that do not overlap *)

Lemma apart_sym (a b : datetime * datetime) : apart a b -> apart b a.
Proof. unfold apart. tauto. Qed.

Lemma apart_inside (a b c : datetime * datetime) :
  apart b c -> inside a b -> apart a c.
Proof. unfold apart, inside. lia. Qed.

Lemma apart_inside_both (a a' b b' : datetime * datetime) :
  apart b b' -> inside a b -> inside a' b' -> apart a a'.
Proof. unfold apart, inside. lia. Qed.

Lemma inside_refl (a : datetime * datetime) : inside a a.
Proof. unfold inside. lia. Qed.

Lemma inside_trans (a b c : datetime * datetime) :
  inside a b -> inside b c -> inside a c.
Proof. unfold inside. lia. Qed.

Section Pairwise.
Context {A : Type} (R : A -> A -> Prop).

Lemma pairwise_app (l1 l2 : list A) :
  ForallOrdPairs R (l1 ++ l2) <->
  ForallOrdPairs R l1 /\ ForallOrdPairs R l2
  /\ forall a b, In a l1 -> In b l2 -> R a b.
Proof.
  induction l1 as [|x l1 IH]; simpl.
  - split.
    + intros H. repeat split; [constructor|exact H|intros ? ? []].
    + intros (_ & H & _). exact H.
  - split.
    + intros H. inversion H as [|? ? Hx Hl]; subst.
      apply IH in Hl. destruct Hl as (H1 & H2 & H3).
      rewrite Forall_app in Hx. destruct Hx as [Hx1 Hx2].
      repeat split.
      * now constructor.
      * exact H2.
      * intros a b [<-|Ha] Hb; [|now apply H3].
        rewrite Forall_forall in Hx2. now apply Hx2.
    + intros (H1 & H2 & H3). inversion H1 as [|? ? Hx Hl]; subst.
      constructor.
      * rewrite Forall_app. split; [exact Hx|].
        apply Forall_forall. intros b Hb. apply H3; [now left|exact Hb].
      * apply IH. repeat split; try assumption.
        intros a b Ha Hb. apply H3; [now right|exact Hb].
Qed.

Lemma pairwise_filter (p : A -> bool) (l : list A) :
  ForallOrdPairs R l -> ForallOrdPairs R (filter p l).
Proof.
  induction 1 as [|x l Hx _ IH]; simpl; [constructor|].
  destruct (p x); [|exact IH].
  constructor; [|exact IH].
  apply Forall_forall. intros b Hb. apply filter_In in Hb.
  rewrite Forall_forall in Hx. now apply Hx.
Qed.

End Pairwise.


(** ** Free time *)

Lemma cut_piece_inside (fa_start fa_end : datetime)
    (a p : datetime * datetime) :
  In p (cut_piece fa_start fa_end a) -> inside p a.
Proof.
  destruct a as [a_start a_end]. unfold cut_piece, inside.
  destruct ((fa_end <=? a_start) || (fa_start >=? a_end)) eqn:E.
  - intros [<-|[]]. simpl. lia.
  - apply orb_false_iff in E. destruct E as [E1 E2].
    intros Hin. apply in_app_or in Hin.
    destruct Hin as [Hin|Hin].
    + destruct (fa_start >? a_start) eqn:E3; [|destruct Hin].
      destruct Hin as [<-|[]]. simpl. lia.
    + destruct (fa_end <? a_end) eqn:E4; [|destruct Hin].
      destruct Hin as [<-|[]]. simpl. lia.
Qed.


Lemma subtract_fixed_inside (fa_start fa_end : datetime)
    (available : list (datetime * datetime)) (w p : datetime * datetime) :
  (forall a, In a available -> inside a w) ->
  In p (subtract_fixed fa_start fa_end available) -> inside p w.
Proof.
  intros Hw Hp. unfold subtract_fixed in Hp.
  apply in_flat_map in Hp. destruct Hp as (a & Ha & Hp).
  eapply inside_trans; [eapply cut_piece_inside; exact Hp|now apply Hw].
Qed.


(** The pieces left of a day's window after all fixed activities. *)
Lemma day_pieces_inside (fixed_activities : list schedule_block)
    (w : datetime * datetime) :
  forall available,
    (forall a, In a available -> inside a w) ->
    forall p,
      In p (fold_left (fun available fa =>
                         subtract_fixed (start_time fa) (end_time fa)
                                        available)
                      fixed_activities available) ->
      inside p w.
Proof.
  induction fixed_activities as [|fa rest IH]; simpl; intros av Hav p Hp.
  - now apply Hav.
  - apply (IH _ (fun a Ha => subtract_fixed_inside _ _ _ _ _ Hav Ha) p Hp).
Qed.


Lemma keep_slots_intervals (available : list (datetime * datetime)) :
  map slot_interval (keep_slots available)
  = filter (fun a => snd a - fst a >=? QUARTER_HOUR) available.
Proof.
  induction available as [|[a_start a_end] rest IH]; [reflexivity|].
  unfold keep_slots in *. cbn [flat_map keep_slot filter fst snd].
  destruct (a_end - a_start >=? QUARTER_HOUR).
  - cbn [app map]. rewrite IH. f_equal.
    unfold slot_interval. cbn [slot_start duration]. f_equal. lia.
  - cbn [app]. exact IH.
Qed.

Lemma keep_slots_duration (available : list (datetime * datetime))
    (s : slot) :
  In s (keep_slots available) -> QUARTER_HOUR <= duration s.
Proof.
  unfold keep_slots. intros Hs. apply in_flat_map in Hs.
  destruct Hs as ([a_start a_end] & _ & Hs). unfold keep_slot in Hs.
  destruct (a_end - a_start >=? QUARTER_HOUR) eqn:E; [|destruct Hs].
  destruct Hs as [<-|[]]. simpl. lia.
Qed.

Lemma date_of_combine (d : date) (t : Z) :
  0 <= t < MICROS_PER_DAY -> date_of (datetime_combine d t) = d.
Proof.
  intros Ht. unfold date_of, datetime_combine.
  rewrite Z.div_add_l by (vm_compute; discriminate).
  rewrite (Z.div_small t) by exact Ht. lia.
Qed.

Lemma date_of_plus_days (t : datetime) (d : Z) :
  date_of (t + timedelta_days d) = date_of t + d.
Proof.
  unfold date_of, timedelta_days.
  apply Z.div_add. vm_compute. discriminate.
Qed.

(** The window that [calculate_free_time] builds for the day offset [d]. *)
Lemma day_window (now : datetime) (d : Z) :
  let day := replace_hour (now + timedelta_days d) 8 in
  (day, replace_hour day 22) = window now d.
Proof.
  cbn zeta. unfold replace_hour, window.
  rewrite date_of_combine by (vm_compute; split; [discriminate|reflexivity]).
  now rewrite date_of_plus_days.
Qed.


Lemma pairwise_map_seq {A : Type} (R : A -> A -> Prop) (f : nat -> A) :
  (forall i j : nat, (i < j)%nat -> R (f i) (f j)) ->
  forall (n a : nat), ForallOrdPairs R (map f (seq a n)).
Proof.
  intros H. induction n as [|n IH]; intros a; simpl; constructor.
  - apply Forall_forall. intros x Hx. apply in_map_iff in Hx.
    destruct Hx as (j & <- & Hj). apply in_seq in Hj. apply H. lia.
  - apply IH.
Qed.

Lemma map_flat_map_slots {X Y Z' : Type} (h : Y -> Z') (f : X -> list Y)
    (l : list X) :
  map h (flat_map f l) = flat_map (fun x => map h (f x)) l.
Proof.
  induction l as [|x l IH]; simpl; [reflexivity|].
  now rewrite map_app, IH.
Qed.

Lemma day_free_slots_inside (now : datetime)
    (fixed_activities : list schedule_block) (d : Z) (s : slot) :
  In s (day_free_slots now fixed_activities d) ->
  QUARTER_HOUR <= duration s /\ inside (slot_interval s) (window now d).
Proof.
  unfold day_free_slots. intros Hs. split.
  - eapply keep_slots_duration. exact Hs.
  - pose proof (in_map slot_interval _ _ Hs) as Hi.
    rewrite keep_slots_intervals in Hi. apply filter_In in Hi.
    destruct Hi as [Hi _].
    eapply day_pieces_inside; [|exact Hi].
    intros a [<-|[]]. rewrite (day_window now d). apply inside_refl.
Qed.


(** Every free slot lasts a quarter of an hour or more and lies in the
    08:00 to 22:00 window of one of the next [days_window] days. *)
Lemma calculate_free_time_inside (now : datetime) (user_id : Z)
    (fixed_activities : list schedule_block) (days_window : nat) (s : slot) :
  In s (calculate_free_time now user_id fixed_activities days_window) ->
  QUARTER_HOUR <= duration s
  /\ exists d, 1 <= d <= Z.of_nat days_window
               /\ inside (slot_interval s) (window now d).
Proof.
  unfold calculate_free_time. intros Hs. apply in_flat_map in Hs.
  destruct Hs as (d & Hd & Hs). apply in_map_iff in Hd.
  destruct Hd as (k & <- & Hk). apply in_seq in Hk.
  destruct (day_free_slots_inside _ _ _ _ Hs) as [H1 H2].
  split; [exact H1|]. exists (Z.of_nat k). split; [lia|exact H2].
Qed.


(** ** Allocation *)

(** The head of the pool is replaced by the intervals [H ++ [h]], which lie
    inside it and apart from one another; the rest of the pool by intervals
    [N ++ R'] that lie inside its slots and apart from one another. *)
Lemma pairwise_split_head (s : datetime * datetime)
    (H N R R' : list (datetime * datetime)) (h : datetime * datetime) :
  ForallOrdPairs apart (s :: R) ->
  ForallOrdPairs apart (H ++ [h]) ->
  (forall x, In x (H ++ [h]) -> inside x s) ->
  ForallOrdPairs apart (N ++ R') ->
  (forall x, In x (N ++ R') -> exists y, In y R /\ inside x y) ->
  ForallOrdPairs apart ((H ++ N) ++ h :: R').
Proof.
  intros HsR HH Hin HN HNin.
  inversion HsR as [|? ? Hs _]; subst. rewrite Forall_forall in Hs.
  apply pairwise_app in HH. destruct HH as (HH1 & _ & HH3).
  apply pairwise_app in HN. destruct HN as (HN1 & HN2 & HN3).
  assert (Hout : forall a b, In a (H ++ [h]) -> In b (N ++ R') -> apart a b).
  { intros a b Ha Hb. destruct (HNin b Hb) as (y & Hy & Hby).
    apply (apart_inside_both a b s y); [now apply Hs|now apply Hin|exact Hby]. }
  apply pairwise_app. repeat split.
  - apply pairwise_app. repeat split; try assumption.
    intros a b Ha Hb. apply Hout; apply in_or_app; now left.
  - constructor; [|exact HN2].
    apply Forall_forall. intros b Hb.
    apply Hout; apply in_or_app; right; [now left|exact Hb].
  - intros a b Ha [<-|Hb].
    + apply in_app_or in Ha. destruct Ha as [Ha|Ha].
      * apply HH3; [exact Ha|now left].
      * apply apart_sym, Hout; apply in_or_app; [right|left];
          [now left|exact Ha].
    + apply in_app_or in Ha. destruct Ha as [Ha|Ha].
      * apply Hout; apply in_or_app; [left|right]; assumption.
      * now apply HN3.
Qed.

Section Scan.
Variables (user_id tid : Z) (name : string).

(** One scan of the pool for a task: the tasks are not touched, blocks are
    only added, and what is added and what is left of the pool lies inside
    the pool as it was; when the slots of the pool do not overlap, the new
    blocks and the slots left do not overlap either. *)
Lemma scan_slots_spec :
  forall (available_slots : list slot) (remaining : Z) (db : database),
    (forall s, In s available_slots -> 0 <= duration s) ->
    let r := scan_slots user_id tid name remaining available_slots db in
    tasks (snd r) = tasks db
    /\ exists new,
        schedule_blocks (snd r) = schedule_blocks db ++ new
        /\ Forall (flexible_block user_id) new
        /\ (forall s, In s (fst (fst r)) -> 0 <= duration s)
        /\ (forall x,
               In x (map block_interval new
                     ++ map slot_interval (fst (fst r))) ->
               exists s, In s available_slots
                         /\ inside x (slot_interval s))
        /\ (ForallOrdPairs apart (map slot_interval available_slots) ->
            ForallOrdPairs apart
              (map block_interval new ++ map slot_interval (fst (fst r)))).
Proof.
  induction available_slots as [|s rest IH]; intros remaining db Hdur.
  - cbn. split; [reflexivity|]. exists []. rewrite app_nil_r.
    repeat split; try constructor; try (intros ? []).
  - cbn zeta. cbn [scan_slots].
    destruct (remaining <=? 0) eqn:Erem.
    { cbn [fst snd]. split; [reflexivity|]. exists [].
      rewrite app_nil_r. cbn [map app].
      split; [reflexivity|]. split; [constructor|].
      split; [exact Hdur|]. split; [|auto].
      intros x Hx. change (In x (map slot_interval (s :: rest))) in Hx.
      apply in_map_iff in Hx. destruct Hx as (s0 & <- & Hs0).
      exists s0. split; [exact Hs0|apply inside_refl]. }
    assert (Hrest : forall s0, In s0 rest -> 0 <= duration s0)
      by (intros; apply Hdur; now right).
    assert (Hs : 0 <= duration s) by (apply Hdur; now left).
    destruct (Z.min remaining (duration s) <=? 0) eqn:Ealloc.
    + specialize (IH remaining db Hrest). cbn zeta in IH.
      destruct (scan_slots user_id tid name remaining rest db)
        as [[rest' r'] db'].
      cbn [fst snd] in *.
      destruct IH as (Ht & new & Hsb & Hflex & Hd & Hin & Hap).
      split; [exact Ht|]. exists new.
      split; [exact Hsb|]. split; [exact Hflex|].
      split; [intros s0 [<-|H0]; [exact Hs|now apply Hd]|].
      split.
      * intros x Hx. apply in_app_or in Hx.
        destruct Hx as [Hx|[<-|Hx]].
        -- destruct (Hin x) as (s0 & H0 & Hi);
             [apply in_or_app; now left|].
           exists s0. split; [now right|exact Hi].
        -- exists s. split; [now left|apply inside_refl].
        -- destruct (Hin x) as (s0 & H0 & Hi);
             [apply in_or_app; now right|].
           exists s0. split; [now right|exact Hi].
      * intros Hpd. cbn [map] in Hpd |- *.
        apply (pairwise_split_head (slot_interval s) []
                 (map block_interval new) (map slot_interval rest)).
        -- exact Hpd.
        -- repeat constructor.
        -- intros x [<-|[]]. apply inside_refl.
        -- apply Hap. now inversion Hpd.
        -- intros x Hx. destruct (Hin x Hx) as (s0 & H0 & Hi).
           exists (slot_interval s0). split; [now apply in_map|exact Hi].
    + set (allocation := Z.min remaining (duration s)) in *.
      set (blk := mk_block (next_block_id db) user_id (Some tid) name
                    (slot_start s) (slot_start s + allocation)
                    false false "once" "").
      set (db1 := insert_schedule_block user_id (Some tid) name
                    (slot_start s) (slot_start s + allocation)
                    false false "once" "" db).
      set (s' := mk_slot (slot_start s + allocation)
                         (duration s - allocation)).
      assert (Halloc : 0 < allocation <= duration s)
        by (unfold allocation in *; lia).
      specialize (IH (remaining - allocation) db1 Hrest). cbn zeta in IH.
      destruct (scan_slots user_id tid name (remaining - allocation) rest db1)
        as [[rest' r'] db'].
      cbn [fst snd] in *.
      destruct IH as (Ht & new & Hsb & Hflex & Hd & Hin & Hap).
      split; [exact Ht|]. exists (blk :: new).
      split; [|split; [|split; [|split]]].
      * rewrite Hsb. unfold db1.
        cbn [insert_schedule_block schedule_blocks].
        now rewrite <- app_assoc.
      * constructor; [|exact Hflex].
        unfold flexible_block, blk. cbn. repeat split. lia.
      * intros s0 [<-|H0]; [unfold s'; cbn; lia|now apply Hd].
      * intros x Hx. cbn [map app In] in Hx.
        destruct Hx as [<-|Hx].
        { exists s. split; [now left|].
          unfold inside, block_interval, slot_interval, blk. cbn. lia. }
        apply in_app_or in Hx. destruct Hx as [Hx|[<-|Hx]].
        -- destruct (Hin x) as (s0 & H0 & Hi);
             [apply in_or_app; now left|].
           exists s0. split; [now right|exact Hi].
        -- exists s. split; [now left|].
           unfold inside, slot_interval, s'. cbn. lia.
        -- destruct (Hin x) as (s0 & H0 & Hi);
             [apply in_or_app; now right|].
           exists s0. split; [now right|exact Hi].
      * intros Hpd. cbn [map] in Hpd |- *.
        apply (pairwise_split_head (slot_interval s) [block_interval blk]
                 (map block_interval new) (map slot_interval rest)).
        -- exact Hpd.
        -- cbn [app]. constructor; [|repeat constructor].
           constructor; [|constructor].
           unfold apart, block_interval, slot_interval, blk, s'. cbn. lia.
        -- intros x [<-|[<-|[]]];
             unfold inside, block_interval, slot_interval, blk, s'; cbn; lia.
        -- apply Hap. now inversion Hpd.
        -- intros x Hx. destruct (Hin x Hx) as (s0 & H0 & Hi).
           exists (slot_interval s0). split; [now apply in_map|exact Hi].
Qed.
End Scan.

Section Pass.
Variable user_id : Z.

Lemma allocate_task_spec (st : list slot * database) (entry : scored_task) :
  (forall s, In s (fst st) -> 0 <= duration s) ->
  let st' := allocate_task user_id st entry in
  exists new,
    schedule_blocks (snd st') = schedule_blocks (snd st) ++ new
    /\ Forall (flexible_block user_id) new
    /\ (forall s, In s (fst st') -> 0 <= duration s)
    /\ (forall x,
           In x (map block_interval new ++ map slot_interval (fst st')) ->
           exists s, In s (fst st) /\ inside x (slot_interval s))
    /\ (ForallOrdPairs apart (map slot_interval (fst st)) ->
        ForallOrdPairs apart
          (map block_interval new ++ map slot_interval (fst st'))).
Proof.
  intros Hdur. cbn zeta. unfold allocate_task.
  pose proof (scan_slots_spec user_id (task_id (TASK_DETAIL entry))
                (task_name (TASK_DETAIL entry))
                (fst st) (required_time (TASK_DETAIL entry)) (snd st) Hdur)
    as H.
  cbn zeta in H.
  destruct (scan_slots user_id (task_id (TASK_DETAIL entry))
              (task_name (TASK_DETAIL entry))
              (required_time (TASK_DETAIL entry)) (fst st) (snd st))
    as [[slots' remaining] db'].
  cbn [fst snd] in H. destruct H as (_ & new & H).
  exists new. destruct (remaining >? 0); exact H.
Qed.

(** The whole loop over the prioritized tasks. *)
Lemma allocate_fold_spec :
  forall (prioritized : list scored_task) (st : list slot * database),
    (forall s, In s (fst st) -> 0 <= duration s) ->
    let st' := fold_left (allocate_task user_id) prioritized st in
    exists new,
      schedule_blocks (snd st') = schedule_blocks (snd st) ++ new
      /\ Forall (flexible_block user_id) new
      /\ (forall x,
             In x (map block_interval new ++ map slot_interval (fst st')) ->
             exists s, In s (fst st) /\ inside x (slot_interval s))
      /\ (ForallOrdPairs apart (map slot_interval (fst st)) ->
          ForallOrdPairs apart
            (map block_interval new ++ map slot_interval (fst st'))).
Proof.
  induction prioritized as [|entry rest IH]; intros st Hdur.
  - cbn. exists []. rewrite app_nil_r. cbn [map app].
    split; [reflexivity|]. split; [constructor|]. split; [|auto].
    intros x Hx. apply in_map_iff in Hx. destruct Hx as (s & <- & Hs).
    exists s. split; [exact Hs|apply inside_refl].
  - cbn zeta. cbn [fold_left].
    destruct (allocate_task_spec st entry Hdur)
      as (new1 & Hsb1 & Hflex1 & Hdur1 & Hin1 & Hap1).
    destruct (IH (allocate_task user_id st entry) Hdur1)
      as (new2 & Hsb2 & Hflex2 & Hin2 & Hap2).
    set (st1 := allocate_task user_id st entry) in *.
    set (st2 := fold_left (allocate_task user_id) rest st1) in *.
    assert (Hin12 :
      forall x, In x (map block_interval new2 ++ map slot_interval (fst st2))
                -> exists s, In s (fst st) /\ inside x (slot_interval s)).
    { intros x Hx. destruct (Hin2 x Hx) as (s1 & Hs1 & Hi1).
      destruct (Hin1 (slot_interval s1)) as (s & Hs & Hi).
      { apply in_or_app. right. now apply in_map. }
      exists s. split; [exact Hs|]. eapply inside_trans; eassumption. }
    exists (new1 ++ new2). split; [|split; [|split]].
    + rewrite Hsb2, Hsb1. now rewrite app_assoc.
    + apply Forall_app. now split.
    + intros x Hx. rewrite map_app, <- app_assoc in Hx.
      apply in_app_or in Hx. destruct Hx as [Hx|Hx].
      * apply Hin1. apply in_or_app. now left.
      * now apply Hin12.
    + intros Hpd. specialize (Hap1 Hpd).
      apply pairwise_app in Hap1. destruct Hap1 as (Hn1 & Hs1 & Hc1).
      specialize (Hap2 Hs1).
      rewrite map_app, <- app_assoc. apply pairwise_app.
      split; [exact Hn1|]. split; [exact Hap2|].
      intros a b Ha Hb. destruct (Hin2 b Hb) as (s1 & Hs1' & Hi1).
      apply apart_sym. apply (apart_inside b (slot_interval s1) a);
        [|exact Hi1].
      apply apart_sym, Hc1; [exact Ha|now apply in_map].
Qed.

End Pass.




(** The same scenario, run: the essay gets 08:00 to 09:00 and 10:00 to
    10:30 of the next day, around the lecture. *)
Example essay_around_the_lecture :
  map block_interval
    (schedule_blocks
       (generate_schedule Example_allocation.now 1 Example_allocation.db))
  = [ (datetime_combine 738887 (9 * MICROS_PER_HOUR),
       datetime_combine 738887 (10 * MICROS_PER_HOUR));
      (datetime_combine 738887 (8 * MICROS_PER_HOUR),
       datetime_combine 738887 (9 * MICROS_PER_HOUR));
      (datetime_combine 738887 (10 * MICROS_PER_HOUR),
       datetime_combine 738887 (10 * MICROS_PER_HOUR + 1800000000)) ].
Proof. vm_compute. reflexivity. Qed.



(** ** Under-allocation *)

Lemma scan_slots_tasks (user_id tid : Z) (name : string) :
  forall (available_slots : list slot) (remaining : Z) (db : database),
    tasks (snd (scan_slots user_id tid name remaining available_slots db))
    = tasks db.
Proof.
  induction available_slots as [|s rest IH]; intros remaining db;
    [reflexivity|].
  cbn [scan_slots]. destruct (remaining <=? 0); [reflexivity|].
  destruct (Z.min remaining (duration s) <=? 0).
  - specialize (IH remaining db).
    destruct (scan_slots user_id tid name remaining rest db) as [[? ?] ?].
    exact IH.
  - set (db1 := insert_schedule_block _ _ _ _ _ _ _ _ _ db).
    specialize (IH (remaining - Z.min remaining (duration s)) db1).
    destruct (scan_slots user_id tid name _ rest db1) as [[? ?] ?].
    exact IH.
Qed.

Lemma flagged_update_status (id id' : Z) (db : database) :
  flagged id db ->
  flagged id (update_status id' "INSUFFICIENT_TIME_WARNING" db).
Proof.
  unfold flagged, update_status. cbn [tasks]. intros H row Hrow Hid.
  apply in_map_iff in Hrow. destruct Hrow as (row0 & <- & H0).
  destruct (task_id row0 =? id'); [reflexivity|]. now apply H.
Qed.

Lemma update_status_flags (id : Z) (db : database) :
  flagged id (update_status id "INSUFFICIENT_TIME_WARNING" db).
Proof.
  unfold flagged, update_status. cbn [tasks]. intros row Hrow Hid.
  apply in_map_iff in Hrow. destruct Hrow as (row0 & <- & H0).
  destruct (task_id row0 =? id) eqn:E; [reflexivity|].
  apply Z.eqb_neq in E. contradiction.
Qed.

Lemma flagged_allocate_task (user_id id : Z) (st : list slot * database)
    (entry : scored_task) :
  flagged id (snd st) -> flagged id (snd (allocate_task user_id st entry)).
Proof.
  intros H. unfold allocate_task.
  pose proof (scan_slots_tasks user_id (task_id (TASK_DETAIL entry))
                (task_name (TASK_DETAIL entry)) (fst st)
                (required_time (TASK_DETAIL entry)) (snd st)) as Ht.
  destruct (scan_slots user_id (task_id (TASK_DETAIL entry))
              (task_name (TASK_DETAIL entry))
              (required_time (TASK_DETAIL entry)) (fst st) (snd st))
    as [[slots' remaining] db'].
  cbn [snd] in Ht.
  assert (H' : flagged id db') by (unfold flagged in *; now rewrite Ht).
  destruct (remaining >? 0); cbn [snd];
    [now apply flagged_update_status|exact H'].
Qed.

Lemma flagged_fold (user_id id : Z) :
  forall (prioritized : list scored_task) (st : list slot * database),
    flagged id (snd st) ->
    flagged id (snd (fold_left (allocate_task user_id) prioritized st)).
Proof.
  induction prioritized as [|entry rest IH]; intros st H; [exact H|].
  cbn [fold_left]. apply IH. now apply flagged_allocate_task.
Qed.

Lemma blocks_kept_fold (user_id : Z) (prioritized : list scored_task)
    (slots : list slot) (db : database) (b : schedule_block) :
  (forall s, In s slots -> 0 <= duration s) ->
  In b (schedule_blocks db) ->
  In b (schedule_blocks
          (snd (fold_left (allocate_task user_id) prioritized (slots, db)))).
Proof.
  intros Hdur Hb.
  destruct (allocate_fold_spec user_id prioritized (slots, db) Hdur)
    as (new & Hsb & _).
  rewrite Hsb. apply in_or_app. now left.
Qed.

(** C2, as the code has it. When the free-time calculation yields no
    slot, [allocate_time_slots] returns at once and leaves the database as
    it is.  When it yields at least one slot, every task whose remaining
    effort is still positive after its scan of the slot pool has the
    status INSUFFICIENT_TIME_WARNING at the end of the pass, and the blocks
    created for it during the scan are in the schedule at the end of the
    pass. *)
Theorem under_allocated_task_flagged_unless_no_slot :
  forall (now : datetime) (user_id : Z) (before after : list scored_task)
         (entry : scored_task) (db : database),
    let slots := calculate_free_time now user_id
                   (get_fixed_activities user_id db) 7 in
    let final := allocate_time_slots now user_id
                   (before ++ entry :: after) db in
    let t := TASK_DETAIL entry in
    let st := fold_left (allocate_task user_id) before (slots, db) in
    let r := scan_slots user_id (task_id t) (task_name t) (required_time t)
               (fst st) (snd st) in
    (slots = [] -> final = db)
    /\ (slots <> [] -> snd (fst r) > 0 ->
        flagged (task_id t) final
        /\ exists partial,
            schedule_blocks (snd r) = schedule_blocks (snd st) ++ partial
            /\ forall b, In b partial -> In b (schedule_blocks final)).
Proof.
  intros now user_id before after entry db slots final t st r.
  assert (Hdur : forall s, In s slots -> 0 <= duration s).
  { intros s Hs. apply calculate_free_time_inside in Hs.
    destruct Hs as [Hq _]. unfold QUARTER_HOUR in Hq. lia. }
  split.
  - intros Hnil. unfold final, allocate_time_slots. fold slots.
    now rewrite Hnil.
  - intros Hne Hrem.
    assert (Hfinal :
      final = snd (fold_left (allocate_task user_id) after
                     (allocate_task user_id st entry))).
    { unfold final, allocate_time_slots. fold slots.
      destruct slots as [|s0 rest] eqn:E; [contradiction|].
      rewrite fold_left_app. reflexivity. }
    assert (Hst : forall s, In s (fst st) -> 0 <= duration s).
    { unfold st. clear - Hdur.
      generalize (slots, db), (Hdur : forall s, In s (fst (slots, db))
                                                -> 0 <= duration s).
      induction before as [|e l IH]; intros p Hp; [exact Hp|].
      cbn [fold_left]. apply IH.
      destruct (allocate_task_spec user_id p e Hp) as (? & _ & _ & H & _).
      exact H. }
    destruct (scan_slots_spec user_id (task_id t) (task_name t) (fst st)
                (required_time t) (snd st) Hst)
      as (_ & partial & Hsb & _ & Hd' & _).
    fold r in Hsb, Hd'.
    assert (Hstep : allocate_task user_id st entry
                    = (fst (fst r),
                       update_status (task_id t)
                         "INSUFFICIENT_TIME_WARNING" (snd r))).
    { unfold allocate_task. fold t. fold r.
      destruct r as [[slots' remaining] db']. cbn [fst snd] in *.
      replace (remaining >? 0) with true; [reflexivity|].
      symmetry. apply Z.gtb_lt. lia. }
    rewrite Hfinal, Hstep. split.
    + apply flagged_fold. cbn [snd]. apply update_status_flags.
    + exists partial. split; [exact Hsb|].
      intros b Hb. apply blocks_kept_fold; [exact Hd'|].
      cbn [update_status schedule_blocks]. rewrite Hsb.
      apply in_or_app. now right.
Qed.

(** A free week of 98 hours and a thesis that needs 100: the thesis is
    flagged and its seven blocks stay. *)
Lemma under_allocated_task_flagged_witness :
  let entry := mk_scored Example_allocation.thesis 901 in
  let db := Example_allocation.free_db in
  let now := Example_allocation.now in
  let final := allocate_time_slots now 1 [entry] db in
  let r := scan_slots 1 1 "thesis" (100 * MICROS_PER_HOUR)
             (calculate_free_time now 1 (get_fixed_activities 1 db) 7) db in
  flagged 1 final
  /\ exists partial,
      schedule_blocks (snd r) = schedule_blocks db ++ partial
      /\ forall b, In b partial -> In b (schedule_blocks final).
Proof.
  apply (proj2 (under_allocated_task_flagged_unless_no_slot
                  Example_allocation.now 1 [] []
                  (mk_scored Example_allocation.thesis 901)
                  Example_allocation.free_db)).
  - intros H. vm_compute in H. discriminate H.
  - vm_compute. reflexivity.
Defined.

(** The same pass, run: 98 of the 100 hours are placed in seven blocks and
    the thesis carries the warning. *)
Example thesis_in_a_free_week :
  let final := generate_schedule Example_allocation.now 1
                 Example_allocation.free_db in
  option_map status (get_task_by_id 1 final)
  = Some "INSUFFICIENT_TIME_WARNING"%string
  /\ List.length (schedule_blocks final) = 7%nat.
Proof. vm_compute. split; reflexivity. Qed.

(** C2, counterexample. A trip covers the whole week, so the list of free
    slots is empty from the start; the essay needs an hour and a half,
    which is what remains of it after the scan of the empty pool, and at
    the end of the pass its status is still PENDING. *)
Lemma no_free_slot_leaves_task_pending :
  let db := Example_allocation.away_db in
  let now := Example_allocation.now in
  let essay := Example_allocation.essay in
  calculate_free_time now 1 (get_fixed_activities 1 db) 7 = []
  /\ snd (fst (scan_slots 1 (task_id essay) (task_name essay)
                 (required_time essay) [] db)) = 5400000000
  /\ option_map status (get_task_by_id 1 (generate_schedule now 1 db))
     = Some "PENDING"%string
  /\ generate_schedule now 1 db = db.
Proof. vm_compute. repeat split; reflexivity. Qed.

(** * Further properties of the engine *)

(** ** Free time and the fixed activities *)

Lemma cut_piece_avoids (fa_start fa_end : datetime)
    (a p : datetime * datetime) :
  In p (cut_piece fa_start fa_end a) -> apart p (fa_start, fa_end).
Proof.
  destruct a as [a_start a_end]. unfold cut_piece, apart.
  destruct ((fa_end <=? a_start) || (fa_start >=? a_end)) eqn:E.
  - intros [<-|[]]. cbn [fst snd].
    apply orb_true_iff in E. destruct E as [E|E]; lia.
  - intros Hin. apply in_app_or in Hin. destruct Hin as [Hin|Hin].
    + destruct (fa_start >? a_start); [|destruct Hin].
      destruct Hin as [<-|[]]. cbn [fst snd]. lia.
    + destruct (fa_end <? a_end); [|destruct Hin].
      destruct Hin as [<-|[]]. cbn [fst snd]. lia.
Qed.

Lemma day_pieces_inside_some (fixed_activities : list schedule_block) :
  forall available p,
    In p (fold_left (fun available fa =>
                       subtract_fixed (start_time fa) (end_time fa)
                                      available)
                    fixed_activities available) ->
    exists a, In a available /\ inside p a.
Proof.
  induction fixed_activities as [|fa rest IH]; simpl; intros av p Hp.
  - exists p. split; [exact Hp|apply inside_refl].
  - destruct (IH _ _ Hp) as (q & Hq & Hpq).
    unfold subtract_fixed in Hq. apply in_flat_map in Hq.
    destruct Hq as (a & Ha & Hq). exists a. split; [exact Ha|].
    eapply inside_trans; [exact Hpq|]. eapply cut_piece_inside. exact Hq.
Qed.

Lemma day_pieces_avoid (fixed_activities : list schedule_block) :
  forall available p fa,
    In fa fixed_activities ->
    In p (fold_left (fun available fa =>
                       subtract_fixed (start_time fa) (end_time fa)
                                      available)
                    fixed_activities available) ->
    apart p (block_interval fa).
Proof.
  induction fixed_activities as [|fa0 rest IH]; simpl;
    intros av p fa Hfa Hp; [destruct Hfa|].
  destruct Hfa as [<-|Hfa].
  - destruct (day_pieces_inside_some _ _ _ Hp) as (q & Hq & Hpq).
    unfold subtract_fixed in Hq. apply in_flat_map in Hq.
    destruct Hq as (a & _ & Hq).
    apply (apart_inside p q); [|exact Hpq].
    eapply cut_piece_avoids. exact Hq.
  - eapply IH; eassumption.
Qed.

(** No free slot overlaps a fixed activity that was subtracted. *)
Lemma calculate_free_time_avoids (now : datetime) (user_id : Z)
    (fixed_activities : list schedule_block) (days_window : nat)
    (s : slot) (fa : schedule_block) :
  In s (calculate_free_time now user_id fixed_activities days_window) ->
  In fa fixed_activities ->
  apart (slot_interval s) (block_interval fa).
Proof.
  unfold calculate_free_time. intros Hs Hfa. apply in_flat_map in Hs.
  destruct Hs as (d & _ & Hs). unfold day_free_slots in Hs.
  pose proof (in_map slot_interval _ _ Hs) as Hi.
  rewrite keep_slots_intervals in Hi. apply filter_In in Hi.
  destruct Hi as [Hi _]. eapply day_pieces_avoid; eassumption.
Qed.


(** ** Hours placed by a scan *)



Lemma total_length_app (l1 l2 : list schedule_block) :
  total_length (l1 ++ l2) = total_length l1 + total_length l2.
Proof. induction l1 as [|b l1 IH]; simpl; [reflexivity|]. lia. Qed.




(** ** What a pass does to the tasks *)

Lemma flag_only_update (ids : list Z) (id : Z) (l0 l : list task) :
  In id ids ->
  Forall2 (flag_only ids) l0 l ->
  Forall2 (flag_only ids) l0
    (map (fun t => if task_id t =? id
                   then set_task_status "INSUFFICIENT_TIME_WARNING" t
                   else t) l).
Proof.
  intros Hid H. induction H as [|old new l0 l Hon _ IH]; simpl;
    constructor; [|exact IH].
  destruct (task_id new =? id) eqn:E; [|exact Hon].
  apply Z.eqb_eq in E. destruct Hon as [->|[-> Hin]].
  - right. split; [reflexivity|now rewrite E].
  - right. split; [reflexivity|exact Hin].
Qed.

Lemma flag_only_fold (user_id : Z) (ids : list Z) (l0 : list task) :
  forall (prioritized : list scored_task) (st : list slot * database),
    (forall e, In e prioritized -> In (task_id (TASK_DETAIL e)) ids) ->
    Forall2 (flag_only ids) l0 (tasks (snd st)) ->
    Forall2 (flag_only ids) l0
      (tasks (snd (fold_left (allocate_task user_id) prioritized st))).
Proof.
  induction prioritized as [|e rest IH]; intros st Hids H; [exact H|].
  cbn [fold_left]. apply IH; [intros; apply Hids; now right|].
  unfold allocate_task.
  pose proof (scan_slots_tasks user_id (task_id (TASK_DETAIL e))
                (task_name (TASK_DETAIL e)) (fst st)
                (required_time (TASK_DETAIL e)) (snd st)) as Ht.
  destruct (scan_slots user_id (task_id (TASK_DETAIL e))
              (task_name (TASK_DETAIL e))
              (required_time (TASK_DETAIL e)) (fst st) (snd st))
    as [[slots' remaining] db'].
  cbn [snd] in Ht.
  destruct (remaining >? 0); cbn [snd]; [|now rewrite Ht].
  unfold update_status. cbn [tasks]. rewrite Ht.
  apply flag_only_update; [apply Hids; now left|exact H].
Qed.

Lemma Forall2_same {A : Type} (R : A -> A -> Prop) (l : list A) :
  (forall a, R a a) -> Forall2 R l l.
Proof. intros H. induction l; constructor; auto. Qed.

Lemma allocate_time_slots_only_flags_lemma (now : datetime) (user_id : Z)
    (prioritized : list scored_task) (db : database) :
  Forall2
    (flag_only (map (fun e => task_id (TASK_DETAIL e)) prioritized))
    (tasks db)
    (tasks (allocate_time_slots now user_id prioritized db)).
Proof.
  unfold allocate_time_slots.
  destruct (calculate_free_time now user_id
              (get_fixed_activities user_id db) 7) as [|s0 rest].
  - apply Forall2_same. intros a. now left.
  - apply flag_only_fold.
    + intros e He. apply in_map_iff. now exists e.
    + cbn [snd]. apply Forall2_same. intros a. now left.
Qed.

(** X3. A pass of [allocate_time_slots] keeps the rows of the tasks table
    in place and changes none of their columns but the status, and that
    only to INSUFFICIENT_TIME_WARNING and only for tasks of the prioritized
    list. *)
Theorem allocate_time_slots_only_flags :
  forall (now : datetime) (user_id : Z) (prioritized : list scored_task)
         (db : database),
    Forall2
      (flag_only (map (fun e => task_id (TASK_DETAIL e)) prioritized))
      (tasks db)
      (tasks (allocate_time_slots now user_id prioritized db)).
Proof.
  intros. apply allocate_time_slots_only_flags_lemma.
Qed.

(** ** The whole generation *)

Lemma filter_all {A : Type} (p : A -> bool) (l : list A) :
  Forall (fun a => p a = true) l -> filter p l = l.
Proof.
  induction 1 as [|a l Ha _ IH]; simpl; [reflexivity|].
  now rewrite Ha, IH.
Qed.

Lemma filter_none {A : Type} (p : A -> bool) (l : list A) :
  Forall (fun a => p a = false) l -> filter p l = [].
Proof.
  induction 1 as [|a l Ha _ IH]; simpl; [reflexivity|].
  now rewrite Ha, IH.
Qed.


Lemma filter_filter_neg {A : Type} (p : A -> bool) (l : list A) :
  filter p (filter (fun a => negb (p a)) l) = [].
Proof.
  apply filter_none, Forall_forall. intros a Ha.
  apply filter_In in Ha. destruct Ha as [_ Ha].
  now apply negb_true_iff in Ha.
Qed.



(** ** Validation comes before any write *)

(** X5. Whenever [add_activity] answers with an error message, the
    database is as it was. *)
Theorem add_activity_error_leaves_database :
  forall (user_id : Z) (form : activity_form) (db : database)
         (message : string),
    fst (add_activity user_id form db) = flash_error message ->
    snd (add_activity user_id form db) = db.
Proof.
  intros user_id form db message. unfold add_activity.
  destruct (String.eqb (f_recurrence_pattern form) "once").
  - destruct (_ || _); [reflexivity|].
    destruct (f_one_time_date form); try reflexivity.
    destruct (f_start_time_only form); try reflexivity.
    destruct (f_end_time_only form); try reflexivity.
    destruct (_ <=? _); [reflexivity|].
    destruct (negb _); [reflexivity|]. discriminate.
  - destruct (_ || _); [reflexivity|].
    destruct (f_recurrence_start_date form); try reflexivity.
    destruct (f_recurrence_end_date form); try reflexivity.
    destruct (_ <? _); [reflexivity|].
    destruct (f_start_time_only form); try reflexivity.
    destruct (f_end_time_only form); try reflexivity.
    destruct (expand_recurrence _ _ _ _ _ _ _ _ _ _ _ _ _). discriminate.
Qed.

Lemma add_activity_error_witness :
  snd (add_activity 1
         (mk_activity_form "Gym" "" "once" (Parsed 738887)
            (Parsed Example_recurrence.ten) (Parsed Example_recurrence.nine)
            Missing Missing [])
         Example_recurrence.db)
  = Example_recurrence.db.
Proof.
  apply (add_activity_error_leaves_database 1 _ Example_recurrence.db
           "End must be after start").
  reflexivity.
Defined.

(** X6. Whenever [edit_schedule_block] answers with an error message, the
    database is as it was: nothing of the old series has been deleted. *)
Theorem edit_schedule_block_error_leaves_database :
  forall (user_id id : Z) (form : edit_form) (db : database)
         (message : string),
    fst (edit_schedule_block user_id id form db) = flash_error message ->
    snd (edit_schedule_block user_id id form db) = db.
Proof.
  intros user_id id form db message. unfold edit_schedule_block.
  destruct (get_schedule_block_by_id id user_id db) as [block|];
    [|reflexivity].
  destruct (e_start_time form) as [| |new_start]; try reflexivity.
  destruct (e_end_time form) as [| |new_end]; try reflexivity.
  destruct (new_start >=? new_end); [reflexivity|].
  assert (Hregen : forall delete_old,
    fst (regenerate_series user_id form new_start new_end delete_old db)
    = flash_error message ->
    snd (regenerate_series user_id form new_start new_end delete_old db)
    = db).
  { intros delete_old. unfold regenerate_series.
    destruct (e_days form); [reflexivity|].
    destruct (e_recurrence_start_date form); try reflexivity;
      destruct (e_recurrence_end_date form); try reflexivity.
    destruct (_ <? _); [reflexivity|].
    destruct (expand_recurrence _ _ _ _ _ _ _ _ _ _ _ _ _). discriminate. }
  destruct (is_recurring block).
  - destruct (is_series_pattern (e_recurrence_pattern form));
      [apply Hregen|].
    destruct (String.eqb (e_recurrence_pattern form) "once"); discriminate.
  - destruct (is_series_pattern (e_recurrence_pattern form));
      [apply Hregen|discriminate].
Qed.

Lemma edit_schedule_block_error_witness :
  snd (edit_schedule_block 1 1 Example_recurrence.edit_no_day
         Example_allocation.db)
  = Example_allocation.db.
Proof.
  apply (edit_schedule_block_error_leaves_database 1 1
           Example_recurrence.edit_no_day Example_allocation.db
           "Please select at least one day").
  reflexivity.
Defined.

(** ** What the expansion inserts *)

Lemma not_overlaps_apart (s e : datetime) (b : schedule_block) :
  ~ overlaps s e (start_time b) (end_time b) ->
  apart (s, e) (block_interval b).
Proof. unfold overlaps, apart, block_interval. cbn [fst snd]. lia. Qed.

Section Inserted.
Variables (empty_selects_all : bool) (user_id : Z).
Variables (name pattern note : string) (selected_days : list string).
Variables (recurrence_start : date) (t_start t_end : Z).

Lemma expand_recurrence_inserts :
  forall (n : nat) (current_date : date) (count : Z) (db : database),
    let r := expand_recurrence empty_selects_all user_id name pattern note
               selected_days recurrence_start t_start t_end
               n current_date count db in
    tasks (snd r) = tasks db
    /\ exists new,
        schedule_blocks (snd r) = schedule_blocks db ++ new
        /\ fst r = count + Z.of_nat (List.length new)
        /\ Forall (occurrence_block user_id name pattern note) new
        /\ ForallOrdPairs apart (map block_interval new)
        /\ forall b old,
             In b new -> In old (schedule_blocks db) ->
             block_user_id old = user_id ->
             apart (block_interval b) (block_interval old).
Proof.
  induction n as [|n IH]; intros current_date count db.
  - cbn zeta. cbn [expand_recurrence fst snd].
    split; [reflexivity|]. exists []. rewrite app_nil_r.
    split; [reflexivity|]. split; [cbn [List.length]; lia|].
    split; [constructor|].
    split; [constructor|]. intros ? ? [].
  - cbn zeta. cbn [expand_recurrence].
    destruct (day_selected empty_selects_all selected_days current_date);
      [|apply IH].
    destruct (datetime_combine current_date t_end
              <=? datetime_combine current_date t_start) eqn:Etime;
      [apply IH|].
    destruct (String.eqb pattern "biweekly"
              && negb (((current_date - recurrence_start) / 7) mod 2 =? 0));
      [apply IH|].
    destruct (check_for_conflict db user_id
                (datetime_combine current_date t_start)
                (datetime_combine current_date t_end)) eqn:Efree;
      [|apply IH].
    set (blk := mk_block (next_block_id db) user_id None name
                  (datetime_combine current_date t_start)
                  (datetime_combine current_date t_end)
                  true true pattern note).
    set (db1 := insert_schedule_block user_id None name
                  (datetime_combine current_date t_start)
                  (datetime_combine current_date t_end)
                  true true pattern note db).
    destruct (IH (current_date + 1) (count + 1) db1)
      as (Ht & new & Hsb & Hc & Hocc & Hpd & Hold).
    split; [exact Ht|]. exists (blk :: new).
    assert (Hdb1 : schedule_blocks db1 = schedule_blocks db ++ [blk])
      by reflexivity.
    split; [|split; [|split; [|split]]].
    + rewrite Hsb, Hdb1. now rewrite <- app_assoc.
    + rewrite Hc. cbn [List.length]. lia.
    + constructor; [|exact Hocc].
      unfold occurrence_block, blk. cbn. repeat split. lia.
    + cbn [map]. constructor; [|exact Hpd].
      apply Forall_forall. intros x Hx. apply in_map_iff in Hx.
      destruct Hx as (b & <- & Hb). apply apart_sym.
      apply (Hold b blk Hb); [|reflexivity].
      rewrite Hdb1. apply in_or_app. right. now left.
    + intros b old [<-|Hb] Hin Hu.
      * apply (not_overlaps_apart _ _ old).
        apply (proj1 (check_for_conflict_true_iff db user_id _ _) Efree);
          assumption.
      * apply (Hold b old Hb); [|exact Hu].
        rewrite Hdb1. apply in_or_app. now left.
Qed.
End Inserted.

(** X7. Whatever the form holds, the recurrence expansion of
    [add_activity] and [edit_schedule_block] only appends blocks; each is a
    fixed, recurring block of the user with no task, carrying the posted
    name, pattern and notes, and starts before it ends; none overlaps a
    block the user had before the expansion, and no two of them overlap.
    The count returned is the number of blocks appended. *)
Theorem expansion_inserts_conflict_free_occurrences :
  forall (empty_selects_all : bool) (user_id : Z)
         (name pattern note : string) (selected_days : list string)
         (range_start range_end : date) (t_start t_end : Z) (db : database),
    let r := expand_recurrence empty_selects_all user_id name pattern note
               selected_days range_start t_start t_end
               (days_in_range range_start range_end) range_start 0 db in
    tasks (snd r) = tasks db
    /\ exists new,
        schedule_blocks (snd r) = schedule_blocks db ++ new
        /\ fst r = Z.of_nat (List.length new)
        /\ Forall (occurrence_block user_id name pattern note) new
        /\ ForallOrdPairs apart (map block_interval new)
        /\ forall b old,
             In b new -> In old (schedule_blocks db) ->
             block_user_id old = user_id ->
             apart (block_interval b) (block_interval old).
Proof.
  intros. apply expand_recurrence_inserts.
Qed.

(** X8. In an expansion with any pattern but biweekly (weekly, that is),
    the occurrence of day [d] is inserted exactly when [d] lies in the
    range, its weekday is selected, the time of day is a proper interval
    and the occurrence is free in the database the expansion started from:
    there is no week filter. *)
Theorem weekly_expansion_has_no_week_filter :
  forall (empty_selects_all : bool) (user_id : Z)
         (name pattern note : string)
         (selected_days : list string) (range_start range_end : date)
         (t_start t_end : Z) (db : database),
    pattern <> "biweekly"%string ->
    0 <= t_start <= MICROS_PER_DAY ->
    0 <= t_end <= MICROS_PER_DAY ->
    let r := expand_recurrence empty_selects_all user_id name pattern
               note selected_days range_start t_start t_end
               (days_in_range range_start range_end) range_start 0 db in
    exists new,
      schedule_blocks (snd r) = schedule_blocks db ++ new
      /\ fst r = Z.of_nat (List.length new)
      /\ forall d,
           In (occurrence t_start t_end d) (map block_interval new) <->
           range_start <= d <= range_end
           /\ day_selected empty_selects_all selected_days d = true
           /\ t_start < t_end
           /\ check_for_conflict db user_id (datetime_combine d t_start)
                (datetime_combine d t_end) = true.
Proof.
  intros empty_selects_all user_id name pattern note selected_days
         range_start range_end t_start t_end db Hp Hs He r.
  destruct (expand_recurrence_spec empty_selects_all user_id name
              pattern note selected_days range_start t_start t_end
              Hs He (days_in_range range_start range_end) range_start 0 db)
    as (new & Hsb & Hc & Hiff).
  exists new. split; [exact Hsb|]. split; [exact Hc|].
  intros d. rewrite Hiff. unfold inserted_on, days_in_range.
  split.
  - intros (Hr & Hsel & Ht & _ & Hf). repeat split; try assumption; lia.
  - intros (Hr & Hsel & Ht & Hf).
    split; [lia|]. split; [exact Hsel|]. split; [exact Ht|].
    split; [intros Hb; contradiction|exact Hf].
Qed.

(** Weekly on Mondays over the 14 days from Monday 2024-01-01. *)
Lemma weekly_expansion_witness :
  exists new,
    schedule_blocks
      (snd (expand_recurrence false 1 "Gym" "weekly" "" ["0"%string]
              738886 Example_recurrence.nine Example_recurrence.ten
              (days_in_range 738886 738899) 738886 0
              Example_recurrence.db))
    = schedule_blocks Example_recurrence.db ++ new
    /\ fst (expand_recurrence false 1 "Gym" "weekly" "" ["0"%string]
              738886 Example_recurrence.nine Example_recurrence.ten
              (days_in_range 738886 738899) 738886 0
              Example_recurrence.db)
       = Z.of_nat (List.length new)
    /\ forall d,
         In (occurrence Example_recurrence.nine Example_recurrence.ten d)
            (map block_interval new) <->
         738886 <= d <= 738899
         /\ day_selected false ["0"%string] d = true
         /\ Example_recurrence.nine < Example_recurrence.ten
         /\ check_for_conflict Example_recurrence.db 1
              (datetime_combine d Example_recurrence.nine)
              (datetime_combine d Example_recurrence.ten) = true.
Proof.
  apply (weekly_expansion_has_no_week_filter false 1 "Gym" "weekly" ""
           ["0"%string] 738886 738899 Example_recurrence.nine
           Example_recurrence.ten Example_recurrence.db).
  - discriminate.
  - vm_compute. split; discriminate.
  - vm_compute. split; discriminate.
Defined.

(** ** Blocks start before they end *)












(** ** Completion *)

Lemma find_map_same_id (id : Z) (f : task -> task) (l : list task) :
  (forall t, task_id (f t) = task_id t) ->
  find (fun t => task_id t =? id) (map f l)
  = option_map f (find (fun t => task_id t =? id) l).
Proof.
  intros Hf. induction l as [|t l IH]; simpl; [reflexivity|].
  rewrite Hf. destruct (task_id t =? id); [reflexivity|exact IH].
Qed.

Lemma dynamic_rescheduling_completed (id : Z) (db : database) (t : task) :
  get_task_by_id id db = Some t ->
  status t = "COMPLETED"%string ->
  dynamic_rescheduling id db = db.
Proof.
  intros Hget Hst. unfold dynamic_rescheduling. now rewrite Hget, Hst.
Qed.

(** X10. Completing a task that is not recurring: [complete_task] leaves
    the database that [handle_task_completion] wrote, in which every row
    of that task id is COMPLETED with today as completion date and the
    schedule blocks are untouched; the call of [dynamic_rescheduling] that
    follows changes nothing, and the logged-in user plays no part. *)
Theorem complete_task_not_recurring :
  forall (now : datetime) (user_id id : Z) (db : database) (t : task),
    get_task_by_id id db = Some t ->
    task_is_recurring t = false ->
    let r := complete_task now user_id id db in
    r = (flash_success "Task marked completed. Schedule adjusted.",
         snd (handle_task_completion (date_of now) id db))
    /\ schedule_blocks (snd r) = schedule_blocks db
    /\ (forall row, In row (tasks (snd r)) -> task_id row = id ->
                    status row = "COMPLETED"%string
                    /\ completion_date row = Some (date_of now))
    /\ (forall row, In row (tasks db) -> task_id row <> id ->
                    In row (tasks (snd r))).
Proof.
  intros now user_id id db t Hget Hrec.
  unfold get_task_by_id in Hget.
  assert (Hr : complete_task now user_id id db
               = (flash_success "Task marked completed. Schedule adjusted.",
                  snd (handle_task_completion (date_of now) id db))).
  { unfold complete_task, handle_task_completion. rewrite Hget, Hrec.
    cbn [task_is_recurring snd]. rewrite ?Hrec. f_equal.
    apply (dynamic_rescheduling_completed id _
             (mk_task (task_id t) (task_user_id t) (subject_id t)
                (task_name t) (due_date t) (required_time t)
                (priority_weight t) "COMPLETED" (task_is_recurring t)
                (Some (date_of now)))); [|reflexivity].
    unfold get_task_by_id. cbn [tasks]. rewrite find_map_same_id.
    - rewrite Hget. cbn [option_map].
      apply find_some in Hget. destruct Hget as [_ E]. now rewrite E.
    - intros r. destruct (task_id r =? id); reflexivity. }
  cbn zeta. rewrite Hr. cbn [snd].
  unfold handle_task_completion. rewrite Hget, Hrec. cbn [snd tasks schedule_blocks].
  split; [reflexivity|]. split; [reflexivity|]. split.
  - intros row Hrow Hid. apply in_map_iff in Hrow.
    destruct Hrow as (r0 & <- & _).
    destruct (task_id r0 =? id) eqn:E; [split; reflexivity|].
    apply Z.eqb_neq in E. contradiction.
  - intros row Hrow Hid. apply in_map_iff. exists row.
    split; [|exact Hrow].
    replace (task_id row =? id) with false; [reflexivity|].
    symmetry. now apply Z.eqb_neq.
Qed.

Lemma complete_task_not_recurring_witness :
  let r := complete_task Example_allocation.now 1 1 Example_allocation.db in
  r = (flash_success "Task marked completed. Schedule adjusted.",
       snd (handle_task_completion (date_of Example_allocation.now) 1
              Example_allocation.db))
  /\ schedule_blocks (snd r) = schedule_blocks Example_allocation.db
  /\ (forall row, In row (tasks (snd r)) -> task_id row = 1 ->
                  status row = "COMPLETED"%string
                  /\ completion_date row
                     = Some (date_of Example_allocation.now))
  /\ (forall row, In row (tasks Example_allocation.db) ->
                  task_id row <> 1 -> In row (tasks (snd r))).
Proof.
  apply (complete_task_not_recurring Example_allocation.now 1 1
           Example_allocation.db Example_allocation.essay);
    reflexivity.
Defined.




(** ** Deleting a series *)

Lemma filter_filter_and {A : Type} (f g : A -> bool) (l : list A) :
  filter f (filter g l) = filter (fun a => g a && f a) l.
Proof.
  induction l as [|a l IH]; simpl; [reflexivity|].
  destruct (g a); simpl; [destruct (f a)|]; now rewrite IH.
Qed.

Lemma delete_each_block (user_id : Z) (l : list schedule_block) :
  forall db : database,
    fold_left (fun d ob => delete_schedule_block (block_id ob) user_id d) l db
    = mk_db (tasks db)
        (filter (fun b =>
                   forallb (fun ob => negb ((block_id b =? block_id ob)
                                            && (block_user_id b =? user_id)))
                           l)
                (schedule_blocks db))
        (next_block_id db).
Proof.
  induction l as [|ob l IH]; intros db.
  - cbn. rewrite filter_all; [now destruct db|].
    apply Forall_forall. reflexivity.
  - cbn [fold_left]. rewrite IH.
    cbn [delete_schedule_block tasks schedule_blocks next_block_id forallb].
    now rewrite filter_filter_and.
Qed.

Lemma NoDup_map_same {A B : Type} (f : A -> B) (l : list A) (a b : A) :
  NoDup (map f l) -> In a l -> In b l -> f a = f b -> a = b.
Proof.
  induction l as [|x l IH]; simpl; intros Hnd Ha Hb Hf; [destruct Ha|].
  inversion Hnd as [|? ? Hx Hl]; subst.
  destruct Ha as [->|Ha], Hb as [->|Hb].
  - reflexivity.
  - exfalso. apply Hx. rewrite Hf. now apply in_map.
  - exfalso. apply Hx. rewrite <- Hf. now apply in_map.
  - now apply IH.
Qed.

(** X12. With block ids unique, as the primary key makes them, the loop of
    [edit_schedule_block] that deletes the old occurrences one by one and
    the single DELETE of [delete_all_recurring_activities] leave the same
    database: the blocks of the series (user, name, pattern) are gone, the
    others are the same rows in the same order, and the row count that
    [delete_all_recurring_activities] returns is the number of blocks the
    series had. *)
Theorem delete_series_removes_the_series :
  forall (user_id : Z) (name pattern : string) (db : database),
    NoDup (map block_id (schedule_blocks db)) ->
    let r := delete_all_recurring_activities user_id name pattern db in
    delete_series user_id name pattern db = snd r
    /\ schedule_blocks (snd r)
       = filter (fun b => negb (in_series user_id name pattern b))
                (schedule_blocks db)
    /\ get_schedule_blocks_by_activity user_id name pattern (snd r) = []
    /\ fst r = List.length
                 (get_schedule_blocks_by_activity user_id name pattern db).
Proof.
  intros user_id name pattern db Hnd. cbn zeta.
  split; [|split; [reflexivity|split]].
  - unfold delete_series, delete_all_recurring_activities.
    rewrite delete_each_block. cbn [snd]. f_equal.
    apply filter_ext_in. intros b Hb.
    change ((block_user_id b =? user_id)
            && String.eqb (activity_name b) name
            && String.eqb (recurrence_pattern b) pattern)
      with (in_series user_id name pattern b).
    destruct (in_series user_id name pattern b) eqn:Es; cbn [negb].
    + apply not_true_is_false. intros Hall.
      rewrite forallb_forall in Hall.
      assert (Hin : In b (get_schedule_blocks_by_activity user_id name
                            pattern db)).
      { unfold get_schedule_blocks_by_activity.
        rewrite order_by_In, filter_In. now split. }
      specialize (Hall b Hin). rewrite Z.eqb_refl in Hall.
      unfold in_series in Es. apply andb_true_iff in Es.
      destruct Es as [Es _]. apply andb_true_iff in Es.
      destruct Es as [Es _]. rewrite Es in Hall. discriminate.
    + apply forallb_forall. intros ob Hob.
      unfold get_schedule_blocks_by_activity in Hob.
      rewrite order_by_In, filter_In in Hob. destruct Hob as [Hob Hs].
      destruct (block_id b =? block_id ob) eqn:E; [|reflexivity].
      apply Z.eqb_eq in E.
      assert (b = ob) by (eapply NoDup_map_same; eassumption).
      subst ob. unfold in_series in Es. congruence.
  - unfold get_schedule_blocks_by_activity, delete_all_recurring_activities.
    cbn [snd schedule_blocks].
    rewrite (filter_filter_neg
               (fun b => (block_user_id b =? user_id)
                         && String.eqb (activity_name b) name
                         && String.eqb (recurrence_pattern b) pattern)).
    reflexivity.
  - unfold get_schedule_blocks_by_activity, delete_all_recurring_activities.
    cbn [fst]. apply Permutation_length, order_by_perm.
Qed.

Lemma delete_series_removes_the_series_witness :
  let db := snd (add_activity 1
                   (with_days Example_recurrence.no_day all_weekdays)
                   Example_allocation.db) in
  let r := delete_all_recurring_activities 1 "Gym" "weekly" db in
  delete_series 1 "Gym" "weekly" db = snd r
  /\ schedule_blocks (snd r)
     = filter (fun b => negb (in_series 1 "Gym" "weekly" b))
              (schedule_blocks db)
  /\ get_schedule_blocks_by_activity 1 "Gym" "weekly" (snd r) = []
  /\ fst r = List.length (get_schedule_blocks_by_activity 1 "Gym" "weekly" db).
Proof.
  apply (delete_series_removes_the_series 1 "Gym" "weekly"
           (snd (add_activity 1
                   (with_days Example_recurrence.no_day all_weekdays)
                   Example_allocation.db))).
  vm_compute. repeat constructor; simpl; intuition discriminate.
Defined.

Lemma find_filter_none {A : Type} (p q : A -> bool) (l : list A) :
  (forall a, In a l -> p a = true -> q a = false) ->
  find p (filter q l) = None.
Proof.
  intros H. destruct (find p (filter q l)) as [a|] eqn:E; [|reflexivity].
  apply find_some in E. destruct E as [Hin Hp].
  apply filter_In in Hin. destruct Hin as [Hin Hq].
  rewrite (H a Hin Hp) in Hq. discriminate.
Qed.

(** X13. With block ids unique, after
    [delete_all_recurring_blocks_view] the user has no block of the given
    id any more, whichever branch ran: the block was not there, it was one
    occurrence of a weekly or biweekly series and went with the series, or
    it was deleted alone.  The tasks are untouched. *)
Theorem delete_all_recurring_blocks_view_removes_block :
  forall (user_id id : Z) (db : database),
    NoDup (map block_id (schedule_blocks db)) ->
    let r := delete_all_recurring_blocks_view user_id id db in
    get_schedule_block_by_id id user_id (snd r) = None
    /\ tasks (snd r) = tasks db
    /\ (forall b, In b (schedule_blocks (snd r)) ->
                  In b (schedule_blocks db)).
Proof.
  intros user_id id db Hnd. cbn zeta.
  unfold delete_all_recurring_blocks_view.
  destruct (get_schedule_block_by_id id user_id db) as [block|] eqn:Eget.
  - unfold get_schedule_block_by_id in Eget.
    pose proof (find_some _ _ Eget) as [Hblock Hmatch].
    apply andb_true_iff in Hmatch. destruct Hmatch as [Hid Hu].
    apply Z.eqb_eq in Hid.
    destruct (is_series_pattern (recurrence_pattern block)).
    + unfold delete_all_recurring_activities. cbn [snd tasks schedule_blocks].
      split; [|split; [reflexivity|]].
      * unfold get_schedule_block_by_id. cbn [schedule_blocks].
        apply find_filter_none. intros b Hb Hp.
        apply andb_true_iff in Hp. destruct Hp as [Hbid Hbu].
        apply Z.eqb_eq in Hbid.
        assert (b = block)
          by (eapply NoDup_map_same; try eassumption; congruence).
        subst b. rewrite Hu, !String.eqb_refl. reflexivity.
      * intros b Hb. now apply filter_In in Hb.
    + cbn [snd delete_schedule_block tasks schedule_blocks].
      split; [|split; [reflexivity|]].
      * unfold get_schedule_block_by_id. cbn [schedule_blocks].
        apply find_filter_none. intros b _ Hp. now rewrite Hp.
      * intros b Hb. now apply filter_In in Hb.
  - cbn [snd]. repeat split; auto.
Qed.

Lemma delete_all_recurring_blocks_view_witness :
  let db := snd (add_activity 1
                   (with_days Example_recurrence.no_day all_weekdays)
                   Example_allocation.db) in
  let r := delete_all_recurring_blocks_view 1 2 db in
  get_schedule_block_by_id 2 1 (snd r) = None
  /\ tasks (snd r) = tasks db
  /\ (forall b, In b (schedule_blocks (snd r)) -> In b (schedule_blocks db)).
Proof.
  apply (delete_all_recurring_blocks_view_removes_block 1 2
           (snd (add_activity 1
                   (with_days Example_recurrence.no_day all_weekdays)
                   Example_allocation.db))).
  vm_compute. repeat constructor; simpl; intuition discriminate.
Defined.

(** ** Editing a task *)

(** X14. [edit_task] touches the tasks table only: each row is left as it
    was or is a row of the logged-in user with the given id, and then its
    status, recurring flag and completion date are as before and its
    required time is positive; on every error message the database is as it
    was.  In particular a task of another user is never changed, and an
    edit does not bring a task with the warning status back to PENDING. *)
Theorem edit_task_changes_only_own_task :
  forall (user_id id : Z) (form : task_form) (db : database),
    let r := edit_task user_id id form db in
    Forall2 (edited user_id id) (tasks db) (tasks (snd r))
    /\ schedule_blocks (snd r) = schedule_blocks db
    /\ (forall message, fst r = flash_error message -> snd r = db).
Proof.
  intros user_id id form db. cbn zeta.
  assert (Herr : forall m : string,
    Forall2 (edited user_id id) (tasks db)
            (tasks (snd (flash_error m, db)))
    /\ schedule_blocks (snd (flash_error m, db)) = schedule_blocks db
    /\ (forall message, fst (flash_error m, db) = flash_error message ->
                        snd (flash_error m, db) = db)).
  { intros m. cbn [fst snd]. split; [|split; [reflexivity|reflexivity]].
    apply Forall2_same. intros a. now left. }
  unfold edit_task.
  destruct (get_task_by_id id db) as [t|]; [|apply Herr].
  destruct (negb (task_user_id t =? user_id)); [apply Herr|].
  destruct (tf_due_date form) as [| |due]; try apply Herr.
  destruct (tf_required_time form) as [| |req]; try apply Herr.
  destruct (match tf_priority_weight form with
            | Missing => Parsed (priority_weight t)
            | Malformed => Malformed
            | Parsed a => Parsed a
            end) as [| |pri]; try apply Herr.
  destruct (req <=? 0) eqn:Ereq; [apply Herr|].
  cbn [fst snd]. unfold update_task. cbn [tasks schedule_blocks].
  split; [|split; [reflexivity|intros message Hm; discriminate Hm]].
  clear Herr.
  induction (tasks db) as [|row l IH]; cbn [map]; constructor; [|exact IH].
  destruct ((task_id row =? id) && (task_user_id row =? user_id)) eqn:E;
    [|now left].
  apply andb_true_iff in E. destruct E as [E1 E2].
  apply Z.eqb_eq in E1, E2. right. cbn. repeat split; try assumption. lia.
Qed.

(** ** Links from blocks to tasks *)

Lemma scan_slots_links (user_id tid : Z) (name : string) :
  forall (available_slots : list slot) (remaining : Z) (db : database),
    exists new,
      schedule_blocks
        (snd (scan_slots user_id tid name remaining available_slots db))
      = schedule_blocks db ++ new
      /\ Forall (fun b => block_user_id b = user_id
                          /\ block_task_id b = Some tid) new.
Proof.
  induction available_slots as [|s rest IH]; intros remaining db.
  - exists []. cbn. now rewrite app_nil_r.
  - cbn [scan_slots]. destruct (remaining <=? 0).
    { exists []. cbn. now rewrite app_nil_r. }
    destruct (Z.min remaining (duration s) <=? 0).
    + destruct (IH remaining db) as (new & Hsb & Hl).
      destruct (scan_slots user_id tid name remaining rest db)
        as [[? ?] ?].
      exists new. now split.
    + set (db1 := insert_schedule_block _ _ _ _ _ _ _ _ _ db).
      destruct (IH (remaining - Z.min remaining (duration s)) db1)
        as (new & Hsb & Hl).
      destruct (scan_slots user_id tid name _ rest db1) as [[? ?] ?].
      cbn [snd] in *. eexists (_ :: new). split.
      * rewrite Hsb. unfold db1.
        cbn [insert_schedule_block schedule_blocks].
        rewrite <- app_assoc. reflexivity.
      * constructor; [split; reflexivity|exact Hl].
Qed.

Lemma allocate_fold_links (user_id : Z) :
  forall (prioritized : list scored_task) (st : list slot * database),
    exists new,
      schedule_blocks (snd (fold_left (allocate_task user_id) prioritized st))
      = schedule_blocks (snd st) ++ new
      /\ Forall (fun b =>
                   block_user_id b = user_id
                   /\ exists e, In e prioritized
                                /\ block_task_id b
                                   = Some (task_id (TASK_DETAIL e))) new.
Proof.
  induction prioritized as [|e rest IH]; intros st.
  - exists []. cbn. now rewrite app_nil_r.
  - cbn [fold_left].
    destruct (IH (allocate_task user_id st e)) as (new2 & Hsb2 & Hl2).
    assert (H1 : exists new1,
      schedule_blocks (snd (allocate_task user_id st e))
      = schedule_blocks (snd st) ++ new1
      /\ Forall (fun b => block_user_id b = user_id
                          /\ block_task_id b
                             = Some (task_id (TASK_DETAIL e))) new1).
    { unfold allocate_task.
      destruct (scan_slots_links user_id (task_id (TASK_DETAIL e))
                  (task_name (TASK_DETAIL e)) (fst st)
                  (required_time (TASK_DETAIL e)) (snd st))
        as (new1 & Hsb1 & Hl1).
      destruct (scan_slots user_id (task_id (TASK_DETAIL e))
                  (task_name (TASK_DETAIL e))
                  (required_time (TASK_DETAIL e)) (fst st) (snd st))
        as [[slots' remaining] db'].
      exists new1. destruct (remaining >? 0); now split. }
    destruct H1 as (new1 & Hsb1 & Hl1).
    exists (new1 ++ new2). split.
    + rewrite Hsb2, Hsb1. now rewrite app_assoc.
    + apply Forall_app. split.
      * eapply Forall_impl; [|exact Hl1]. intros b [Hu Ht].
        split; [exact Hu|]. exists e. split; [now left|exact Ht].
      * eapply Forall_impl; [|exact Hl2]. intros b [Hu (e' & He' & Ht)].
        split; [exact Hu|]. exists e'. split; [now right|exact Ht].
Qed.

Lemma flag_only_keeps_owner (ids : list Z) (l0 l : list task) :
  Forall2 (flag_only ids) l0 l ->
  forall t, In t l0 ->
    exists t', In t' l /\ task_id t' = task_id t
               /\ task_user_id t' = task_user_id t.
Proof.
  induction 1 as [|old new l0 l Hon _ IH]; intros t Ht; [destruct Ht|].
  destruct Ht as [<-|Ht].
  - exists new. split; [now left|].
    destruct Hon as [->|[-> _]]; split; reflexivity.
  - destruct (IH t Ht) as (t' & Hin & H1 & H2).
    exists t'. split; [now right|now split].
Qed.

(** X15. The links from schedule blocks to tasks stay sound: when every
    block linked to a task is linked to a stored task of its own user,
    that still holds after [delete_task], which removes the blocks of the
    task with the task, and after [generate_schedule], whose new blocks
    are linked to PENDING tasks of the user. *)
Theorem task_links_stay_sound :
  forall (now : datetime) (user_id id : Z) (db : database),
    references_ok db ->
    references_ok (delete_task id user_id db)
    /\ references_ok (generate_schedule now user_id db).
Proof.
  intros now user_id id db Hok. split.
  - unfold references_ok, delete_task. cbn [tasks schedule_blocks].
    intros b tid Hb Htid. apply filter_In in Hb. destruct Hb as [Hb Hkeep].
    destruct (Hok b tid Hb Htid) as (t & Ht & H1 & H2).
    exists t. split; [|now split]. apply filter_In. split; [exact Ht|].
    rewrite Htid in Hkeep. rewrite H1, H2.
    destruct (tid =? id); [exact Hkeep|reflexivity].
  - unfold generate_schedule.
    set (db1 := delete_flexible_schedule_blocks user_id db).
    set (prioritized := task_prioritization now
                          (fetch_tasks user_id "PENDING" db1)).
    pose proof (allocate_time_slots_only_flags_lemma now user_id
                  prioritized db1) as Hflags.
    assert (Hlinks : exists new,
      schedule_blocks (allocate_time_slots now user_id prioritized db1)
      = schedule_blocks db1 ++ new
      /\ Forall (fun b =>
                   block_user_id b = user_id
                   /\ exists e, In e prioritized
                                /\ block_task_id b
                                   = Some (task_id (TASK_DETAIL e))) new).
    { unfold allocate_time_slots.
      destruct (calculate_free_time now user_id
                  (get_fixed_activities user_id db1) 7) as [|s0 rest].
      - exists []. rewrite app_nil_r. split; [reflexivity|constructor].
      - apply (allocate_fold_links user_id prioritized (s0 :: rest, db1)). }
    destruct Hlinks as (new & Hsb & Hl).
    unfold references_ok. rewrite Hsb. intros b tid Hb Htid.
    apply in_app_or in Hb. destruct Hb as [Hb|Hb].
    + unfold db1 in Hb.
      cbn [delete_flexible_schedule_blocks schedule_blocks] in Hb.
      apply filter_In in Hb. destruct Hb as [Hb _].
      destruct (Hok b tid Hb Htid) as (t & Ht & H1 & H2).
      destruct (flag_only_keeps_owner _ _ _ Hflags t Ht)
        as (t' & Ht' & H1' & H2').
      exists t'. split; [exact Ht'|]. split; congruence.
    + rewrite Forall_forall in Hl.
      destruct (Hl b Hb) as (Hu & e & He & Ht). rewrite Htid in Ht.
      injection Ht as ->.
      assert (Hin : In e (map (score_task now)
                            (fetch_tasks user_id "PENDING" db1))).
      { eapply Permutation_in; [|exact He]. apply Permutation_sym.
        unfold prioritized, task_prioritization.
        exact (proj1 (selection_sort_tasks_sorted_perm _ _ eq_refl)). }
      apply in_map_iff in Hin. destruct Hin as (t & <- & Ht).
      unfold fetch_tasks in Ht. rewrite order_by_In, filter_In in Ht.
      destruct Ht as [Ht Hp]. apply andb_true_iff in Hp.
      destruct Hp as [Hp _]. apply Z.eqb_eq in Hp.
      destruct (flag_only_keeps_owner _ _ _ Hflags t Ht)
        as (t' & Ht' & H1' & H2').
      exists t'. split; [exact Ht'|]. cbn [TASK_DETAIL score_task].
      split; congruence.
Qed.

Lemma task_links_stay_sound_witness :
  references_ok (delete_task 1 1 Example_allocation.db)
  /\ references_ok
       (generate_schedule Example_allocation.now 1 Example_allocation.db).
Proof.
  apply (task_links_stay_sound Example_allocation.now 1 1
           Example_allocation.db).
  intros b tid [<-|[]] H. discriminate H.
Defined.

(** ** The order of stored tasks *)

Lemma StronglySorted_impl_in {A : Type} (R R' : A -> A -> Prop)
    (l : list A) :
  (forall a b, In a l -> In b l -> R a b -> R' a b) ->
  StronglySorted R l -> StronglySorted R' l.
Proof.
  intros H Hs. induction Hs as [|a l Hs IH Ha]; constructor.
  - apply IH. intros x y Hx Hy. apply H; now right.
  - rewrite Forall_forall in *. intros b Hb.
    apply H; [now left|now right|now apply Ha].
Qed.

(** X16. For tasks read from the table, the order that
    [task_prioritization] returns is the descending order of the priority
    weights alone: every entry carries the score 900 plus its weight, so
    the due dates have no influence on the order. *)
Theorem stored_tasks_are_ordered_by_weight :
  forall (today : datetime) (task_records : list task),
    Forall (fun e => SCORE e = 900 + priority_weight (TASK_DETAIL e))
           (task_prioritization today task_records)
    /\ StronglySorted weight_ge (task_prioritization today task_records).
Proof.
  intros today task_records.
  destruct (selection_sort_tasks_sorted_perm
              (List.length (map (score_task today) task_records))
              (map (score_task today) task_records) eq_refl) as [Hp Hs].
  fold (task_prioritization today task_records) in Hp, Hs.
  assert (Hscore : Forall (fun e => SCORE e
                                    = 900 + priority_weight (TASK_DETAIL e))
                     (task_prioritization today task_records)).
  { eapply Permutation_Forall; [exact Hp|].
    apply Forall_forall. intros e He. apply in_map_iff in He.
    destruct He as (t & <- & _). reflexivity. }
  split; [exact Hscore|].
  eapply StronglySorted_impl_in; [|exact Hs].
  rewrite Forall_forall in Hscore.
  intros a b Ha Hb. unfold score_ge, weight_ge.
  rewrite (Hscore a Ha), (Hscore b Hb). lia.
Qed.

(** ** The buckets of the weekly status *)

Lemma count_task_fold (current_date : datetime) (l : list task) :
  forall m : metrics,
    fold_left (count_task current_date) l m
    = mk_metrics
        (M_COMPLETED m
         + List.length (filter (counts_completed current_date) l))
        (M_PENDING m + List.length (filter (counts_pending current_date) l))
        (M_MISSED m + List.length (filter (counts_missed current_date) l)).
Proof.
  induction l as [|t l IH]; intros m.
  - cbn. rewrite !Nat.add_0_r. now destruct m.
  - cbn [fold_left filter]. rewrite IH.
    unfold count_task, counts_completed, counts_pending, counts_missed,
      in_report.
    destruct (due_date t <? date_of (current_date - timedelta_days 7));
      cbn [negb andb]; [reflexivity|].
    destruct (String.eqb (status t) "COMPLETED"); cbn [negb andb].
    + cbn [M_COMPLETED M_PENDING M_MISSED List.length]. f_equal; lia.
    + destruct (due_date t <? date_of current_date); cbn [negb];
        cbn [M_COMPLETED M_PENDING M_MISSED List.length]; f_equal; lia.
Qed.

(** X17. What [calculate_weekly_status] counts, over the rows that
    [fetch_recent_tasks] returns: a task due more than seven days before
    the reference date is in no bucket; of the others, a COMPLETED task is
    counted as completed whatever its due or completion date, and a task
    of any other status is missed when due before the reference date and
    pending otherwise.  Each row is in at most one bucket. *)
Theorem weekly_status_buckets :
  forall (current_date : datetime) (user_id : Z) (db : database),
    let recent := fetch_recent_tasks user_id 5 db in
    calculate_weekly_status current_date user_id db
    = mk_metrics
        (List.length (filter (counts_completed current_date) recent))
        (List.length (filter (counts_pending current_date) recent))
        (List.length (filter (counts_missed current_date) recent))
    /\ total (calculate_weekly_status current_date user_id db)
       = List.length (filter (in_report current_date) recent).
Proof.
  intros current_date user_id db recent.
  unfold calculate_weekly_status. fold recent.
  rewrite count_task_fold. cbn [M_COMPLETED M_PENDING M_MISSED].
  split; [reflexivity|]. unfold total.
  cbn [M_COMPLETED M_PENDING M_MISSED].
  unfold counts_completed, counts_pending, counts_missed.
  induction recent as [|t l IH]; [reflexivity|].
  cbn [filter].
  destruct (in_report current_date t); cbn [andb]; [|exact IH].
  destruct (String.eqb (status t) "COMPLETED"); cbn [negb andb].
  - cbn [List.length]. lia.
  - destruct (due_date t <? date_of current_date); cbn [negb];
      cbn [List.length]; lia.
Qed.

(** ** The free slots in order *)

Lemma before_inside_both (a a' b b' : datetime * datetime) :
  before b b' -> inside a b -> inside a' b' -> before a a'.
Proof. unfold before, inside. lia. Qed.

Lemma in_order_flat_refine {X : Type}
    (f : X -> list (datetime * datetime)) (g : X -> datetime * datetime)
    (l : list X) :
  ForallOrdPairs before (map g l) ->
  (forall x, In x l ->
             ForallOrdPairs before (f x)
             /\ forall a, In a (f x) -> inside a (g x)) ->
  ForallOrdPairs before (flat_map f l).
Proof.
  induction l as [|x l IH]; simpl; intros Hg Hf; [constructor|].
  inversion Hg as [|? ? Hx Hl]; subst.
  apply pairwise_app. repeat split.
  - apply Hf. now left.
  - apply IH; [exact Hl|]. intros y Hy. apply Hf. now right.
  - intros a b Ha Hb. apply in_flat_map in Hb. destruct Hb as (y & Hy & Hb).
    rewrite Forall_forall in Hx.
    apply (before_inside_both a b (g x) (g y)).
    + apply Hx. now apply in_map.
    + apply Hf; [now left|exact Ha].
    + apply Hf; [now right|exact Hb].
Qed.

Lemma cut_piece_in_order (fa_start fa_end : datetime)
    (a : datetime * datetime) :
  fa_start <= fa_end ->
  ForallOrdPairs before (cut_piece fa_start fa_end a).
Proof.
  intros Hfa. destruct a as [a_start a_end]. unfold cut_piece.
  destruct ((fa_end <=? a_start) || (fa_start >=? a_end)).
  - repeat constructor.
  - destruct (fa_start >? a_start), (fa_end <? a_end); simpl;
      repeat constructor.
    unfold before. simpl. lia.
Qed.

Lemma day_pieces_in_order (fixed_activities : list schedule_block) :
  (forall fa, In fa fixed_activities -> start_time fa <= end_time fa) ->
  forall available,
    ForallOrdPairs before available ->
    ForallOrdPairs before
      (fold_left (fun available fa =>
                    subtract_fixed (start_time fa) (end_time fa) available)
                 fixed_activities available).
Proof.
  induction fixed_activities as [|fa rest IH]; simpl; intros Hfa av Hav.
  - exact Hav.
  - apply IH; [intros; apply Hfa; now right|].
    unfold subtract_fixed.
    apply (in_order_flat_refine _ (fun a => a)).
    + now rewrite map_id.
    + intros a _. split; [apply cut_piece_in_order, Hfa; now left|].
      intros p. apply cut_piece_inside.
Qed.

Lemma windows_in_order (now : datetime) (d d' : Z) :
  d < d' -> before (window now d) (window now d').
Proof.
  unfold before, window, datetime_combine, MICROS_PER_DAY, MICROS_PER_HOUR.
  simpl. lia.
Qed.

(** X18. The free slots that [calculate_free_time] returns: each lasts a
    quarter of an hour or more, lies in the 08:00 to 22:00 window of one of
    the next [days_window] days and overlaps no fixed activity; and, the
    fixed activities starting at or before their end, the list is in
    chronological order, every slot ending at or before the start of each
    later one. *)
Theorem free_slots_in_chronological_order :
  forall (now : datetime) (user_id : Z)
         (fixed_activities : list schedule_block) (days_window : nat),
    (forall fa, In fa fixed_activities -> start_time fa <= end_time fa) ->
    let slots := calculate_free_time now user_id fixed_activities
                   days_window in
    ForallOrdPairs before (map slot_interval slots)
    /\ forall s, In s slots ->
         QUARTER_HOUR <= duration s
         /\ (exists d, 1 <= d <= Z.of_nat days_window
                       /\ inside (slot_interval s) (window now d))
         /\ forall fa, In fa fixed_activities ->
                       apart (slot_interval s) (block_interval fa).
Proof.
  intros now user_id fixed_activities days_window Hfa. cbn zeta. split.
  - unfold calculate_free_time. rewrite map_flat_map_slots.
    apply (in_order_flat_refine _ (window now)).
    + rewrite map_map. apply pairwise_map_seq.
      intros i j Hij. apply windows_in_order. lia.
    + intros d _. split.
      * unfold day_free_slots. rewrite keep_slots_intervals.
        apply pairwise_filter, day_pieces_in_order; [exact Hfa|].
        repeat constructor.
      * intros a Ha. apply in_map_iff in Ha. destruct Ha as (s & <- & Hs).
        now apply day_free_slots_inside in Hs.
  - intros s Hs.
    destruct (calculate_free_time_inside _ _ _ _ _ Hs) as [Hq Hw].
    split; [exact Hq|]. split; [exact Hw|].
    intros fa Hin. eapply calculate_free_time_avoids; eassumption.
Qed.

Lemma free_slots_in_chronological_order_witness :
  let slots := calculate_free_time Example_allocation.now 1
                 [Example_allocation.lecture] 7 in
  ForallOrdPairs before (map slot_interval slots)
  /\ forall s, In s slots ->
       QUARTER_HOUR <= duration s
       /\ (exists d, 1 <= d <= Z.of_nat 7
                     /\ inside (slot_interval s)
                               (window Example_allocation.now d))
       /\ forall fa, In fa [Example_allocation.lecture] ->
                     apart (slot_interval s) (block_interval fa).
Proof.
  apply (free_slots_in_chronological_order Example_allocation.now 1
           [Example_allocation.lecture] 7).
  intros fa [<-|[]]. vm_compute. discriminate.
Defined.

(** X19. The greedy order of [allocate_time_slots]: when there is a free
    slot and the first task of the prioritized list needs a positive
    time, the first block inserted is linked to that task and starts at
    the start of the first free slot, taking the smaller of the time
    needed and the length of the slot. *)
Theorem first_task_takes_first_slot :
  forall (now : datetime) (user_id : Z) (entry : scored_task)
         (others : list scored_task) (db : database)
         (s0 : slot) (later : list slot),
    calculate_free_time now user_id (get_fixed_activities user_id db) 7
    = s0 :: later ->
    0 < required_time (TASK_DETAIL entry) ->
    exists more,
      schedule_blocks
        (allocate_time_slots now user_id (entry :: others) db)
      = schedule_blocks db
        ++ mk_block (next_block_id db) user_id
             (Some (task_id (TASK_DETAIL entry)))
             (task_name (TASK_DETAIL entry))
             (slot_start s0)
             (slot_start s0
              + Z.min (required_time (TASK_DETAIL entry)) (duration s0))
             false false "once" ""
           :: more.
Proof.
  intros now user_id entry others db s0 later Hslots Hreq.
  assert (Hq : QUARTER_HOUR <= duration s0).
  { eapply (calculate_free_time_inside now user_id
              (get_fixed_activities user_id db) 7).
    rewrite Hslots. now left. }
  unfold QUARTER_HOUR in Hq.
  unfold allocate_time_slots. rewrite Hslots. cbn [fold_left].
  destruct (allocate_fold_links user_id others
              (allocate_task user_id (s0 :: later, db) entry))
    as (new2 & Hsb2 & _).
  rewrite Hsb2. clear Hsb2.
  unfold allocate_task. cbn [fst snd scan_slots].
  replace (required_time (TASK_DETAIL entry) <=? 0) with false
    by (symmetry; apply Z.leb_gt; lia).
  replace (Z.min (required_time (TASK_DETAIL entry)) (duration s0) <=? 0)
    with false by (symmetry; apply Z.leb_gt; lia).
  set (allocation := Z.min (required_time (TASK_DETAIL entry)) (duration s0)).
  set (db1 := insert_schedule_block user_id
                (Some (task_id (TASK_DETAIL entry)))
                (task_name (TASK_DETAIL entry)) (slot_start s0)
                (slot_start s0 + allocation) false false "once" "" db).
  destruct (scan_slots_links user_id (task_id (TASK_DETAIL entry))
              (task_name (TASK_DETAIL entry)) later
              (required_time (TASK_DETAIL entry) - allocation) db1)
    as (new1 & Hsb1 & _).
  destruct (scan_slots user_id (task_id (TASK_DETAIL entry))
              (task_name (TASK_DETAIL entry))
              (required_time (TASK_DETAIL entry) - allocation) later db1)
    as [[rest' remaining] db'].
  cbn [snd] in Hsb1. exists (new1 ++ new2).
  assert (Hdb' : schedule_blocks
                   (snd (if remaining >? 0
                         then (mk_slot (slot_start s0 + allocation)
                                 (duration s0 - allocation) :: rest',
                               update_status (task_id (TASK_DETAIL entry))
                                 "INSUFFICIENT_TIME_WARNING" db')
                         else (mk_slot (slot_start s0 + allocation)
                                 (duration s0 - allocation) :: rest', db')))
                 = schedule_blocks db')
    by (destruct (remaining >? 0); reflexivity).
  rewrite Hdb', Hsb1. unfold db1.
  cbn [insert_schedule_block schedule_blocks].
  now rewrite <- !app_assoc.
Qed.

Lemma first_task_takes_first_slot_witness :
  exists more,
    schedule_blocks
      (allocate_time_slots Example_allocation.now 1
         [mk_scored Example_allocation.essay 901] Example_allocation.db)
    = schedule_blocks Example_allocation.db
      ++ mk_block 2 1 (Some 1) "essay"
           (datetime_combine 738887 (8 * MICROS_PER_HOUR))
           (datetime_combine 738887 (8 * MICROS_PER_HOUR)
            + Z.min 5400000000 MICROS_PER_HOUR)
           false false "once" ""
         :: more.
Proof.
  apply (first_task_takes_first_slot Example_allocation.now 1
           (mk_scored Example_allocation.essay 901) []
           Example_allocation.db
           (mk_slot (datetime_combine 738887 (8 * MICROS_PER_HOUR))
                    MICROS_PER_HOUR)
           (tl (calculate_free_time Example_allocation.now 1
                  (get_fixed_activities 1 Example_allocation.db) 7))).
  - vm_compute. reflexivity.
  - vm_compute. reflexivity.
Defined.
